(** * A Cardano demo dApp: balance formatter, send-to-self workflow and
      transaction collector

    A shallow embedding of the two source files of the repository:
    the Express collector ([src/server/index.js], first part) and the React
    wallet card (second part of the same file), with the properties the
    specification states about them. *)

From Stdlib Require Import ZArith List String Ascii Bool Lia.
From Stdlib Require Import Sorting.Sorted.
Import ListNotations.

Local Open Scope string_scope.
Local Open Scope Z_scope.

(* ================================================================== *)
(** * Part I. The JavaScript values and built-ins the code relies on *)
(* ================================================================== *)

Module Js.

(** A [string] stands for a JavaScript string whose code units are all
    below 256; one [ascii] is one code unit. *)

(** Number values, as far as [BigInt(...)] and truthiness tell them apart:
    an integral value (both zeros are [NumInt 0]), NaN, and every other
    value (fractions and the two infinities). *)
Inductive number : Type :=
| NumInt (z : Z)
| NumNaN
| NumOther.

(** Primitive values (symbols left out). *)
Inductive prim : Type :=
| PUndefined
| PNull
| PBool (b : bool)
| PNumber (n : number)
| PString (s : string)
| PBigInt (z : Z).

(** A value as a JSON body can carry it: a primitive, or an object or
    array, of which only truthiness and [typeof] are observed. *)
Inductive value : Type :=
| VPrim (p : prim)
| VObject.

(** The exceptions the built-ins used here can raise. *)
Inductive exn : Type :=
| SyntaxError
| RangeError
| TypeError.

(** Completion of an evaluation: a value or a thrown exception. *)
Inductive completion (A : Type) : Type :=
| Normal (a : A)
| Throw (e : exn).
Arguments Normal {A} a.
Arguments Throw {A} e.

(** ToBoolean. *)
Definition truthy_prim (p : prim) : bool :=
  match p with
  | PUndefined | PNull => false
  | PBool b => b
  | PNumber (NumInt z) => negb (Z.eqb z 0)
  | PNumber NumNaN => false
  | PNumber NumOther => true
  | PString s => negb (String.eqb s "")
  | PBigInt z => negb (Z.eqb z 0)
  end.

Definition truthy (v : value) : bool :=
  match v with
  | VPrim p => truthy_prim p
  | VObject => true
  end.

(** [a || b] *)
Definition or_prim (a b : prim) : prim := if truthy_prim a then a else b.
Definition or_value (a b : value) : value := if truthy a then a else b.

(** WhiteSpace and LineTerminator code units below 256: TAB, LF, VT, FF, CR,
    SPACE and NO-BREAK SPACE. *)
Definition isWhiteSpace (c : ascii) : bool :=
  let n := N_of_ascii c in
  ((n =? 9) || (n =? 10) || (n =? 11) || (n =? 12) || (n =? 13)
   || (n =? 32) || (n =? 160))%N.

Fixpoint trimStart (s : string) : string :=
  match s with
  | EmptyString => EmptyString
  | String c r => if isWhiteSpace c then trimStart r else s
  end.

Fixpoint trimEnd (s : string) : string :=
  match s with
  | EmptyString => EmptyString
  | String c r =>
      match trimEnd r with
      | EmptyString => if isWhiteSpace c then EmptyString else String c EmptyString
      | r' => String c r'
      end
  end.

(** String.prototype.trim *)
Definition trim (s : string) : string := trimEnd (trimStart s).

(** The filler of [padStart]: [fill] repeated and cut to [n] code units
    ([rest] is what is left of the current copy of [fill]). *)
Fixpoint filler (n : nat) (fill rest : string) : string :=
  match n with
  | O => EmptyString
  | S k =>
      match rest with
      | String c r => String c (filler k fill r)
      | EmptyString =>
          match fill with
          | String c r => String c (filler k fill r)
          | EmptyString => EmptyString
          end
      end
  end.

(** String.prototype.padStart(maxLength, fillString) *)
Definition padStart (maxLength : nat) (fillString : string) (s : string) : string :=
  if (maxLength <=? String.length s)%nat then s
  else if String.eqb fillString "" then s
  else filler (maxLength - String.length s) fillString fillString ++ s.

(** Value of a digit in a radix: [0-9], [a-z], [A-Z]. *)
Definition digitValue (radix : Z) (c : ascii) : option Z :=
  let n := Z.of_N (N_of_ascii c) in
  let v := if (48 <=? n) && (n <=? 57) then Some (n - 48)
           else if (97 <=? n) && (n <=? 122) then Some (n - 87)
           else if (65 <=? n) && (n <=? 90) then Some (n - 55)
           else None in
  match v with
  | Some d => if d <? radix then Some d else None
  | None => None
  end.

Fixpoint parseDigits (radix : Z) (acc : Z) (s : string) : option Z :=
  match s with
  | EmptyString => Some acc
  | String c r =>
      match digitValue radix c with
      | Some d => parseDigits radix (acc * radix + d) r
      | None => None
      end
  end.

(** One or more digits. *)
Definition parseInteger (radix : Z) (s : string) : option Z :=
  match s with
  | EmptyString => None
  | _ => parseDigits radix 0 s
  end.

(** StringToBigInt: the StringIntegerLiteral grammar.  White space around
    the literal is dropped; the empty literal is zero; a decimal literal may
    carry a sign; a literal with prefix 0x, 0o or 0b may not.  [None] is the
    specification's [undefined]. *)
Definition StringToBigInt (str : string) : option Z :=
  match trim str with
  | EmptyString => Some 0
  | String "+" r => parseInteger 10 r
  | String "-" r => option_map Z.opp (parseInteger 10 r)
  | String "0" (String x r) as t =>
      if (Ascii.eqb x "x" || Ascii.eqb x "X")%bool then parseInteger 16 r
      else if (Ascii.eqb x "o" || Ascii.eqb x "O")%bool then parseInteger 8 r
      else if (Ascii.eqb x "b" || Ascii.eqb x "B")%bool then parseInteger 2 r
      else parseInteger 10 t
  | t => parseInteger 10 t
  end.

(** The [BigInt(value)] function on primitives. *)
Definition BigInt (p : prim) : completion Z :=
  match p with
  | PNumber (NumInt z) => Normal z
  | PNumber _ => Throw RangeError
  | PUndefined | PNull => Throw TypeError
  | PBool b => Normal (if b then 1 else 0)
  | PBigInt z => Normal z
  | PString s =>
      match StringToBigInt s with
      | Some z => Normal z
      | None => Throw SyntaxError
      end
  end.

Definition digitChar (d : Z) : ascii := ascii_of_N (Z.to_N (48 + d)).

(** Decimal digits of a non-negative integer, most significant first, in
    front of [acc].  The fuel bounds the number of digits. *)
Fixpoint digitsOf (fuel : nat) (n : Z) (acc : string) : string :=
  let acc' := String (digitChar (n mod 10)) acc in
  match fuel with
  | O => acc'
  | S f => if n <? 10 then acc' else digitsOf f (n / 10) acc'
  end.

(** BigInt.prototype.toString() in radix 10. *)
Definition BigInt_toString (z : Z) : string :=
  let n := Z.abs z in
  let ds := digitsOf (Z.to_nat (Z.log2 n)) n EmptyString in
  if z <? 0 then String "-" ds else ds.

(** String.prototype.toLowerCase on code units below 256: the letters
    A-Z and the Latin-1 capitals (192-222, the multiplication sign 215
    apart) move up by 32. *)
Definition toLowerCaseUnit (c : ascii) : ascii :=
  let n := N_of_ascii c in
  if (((65 <=? n) && (n <=? 90))
      || ((192 <=? n) && (n <=? 222) && negb (n =? 215)))%N
  then ascii_of_N (n + 32)
  else c.

Fixpoint toLowerCase (s : string) : string :=
  match s with
  | EmptyString => EmptyString
  | String c r => String (toLowerCaseUnit c) (toLowerCase r)
  end.

(** The one-character string holding a double quote (code unit 34). *)
Definition dquote : string := String (ascii_of_N 34) EmptyString.

End Js.

(* ================================================================== *)
(** * Part II. The wallet card (client) *)
(* ================================================================== *)

Module App.
Import Js.

(** [formatLovelaceToAda(lovelaceValue)].  BigInt [/] truncates towards
    zero and [%] takes the sign of the dividend: [Z.quot] and [Z.rem]. *)
Definition formatLovelaceToAda (lovelaceValue : prim) : completion string :=
  match BigInt (or_prim lovelaceValue (PString "0")) with
  | Throw e => Throw e
  | Normal lovelaceBigInt =>
      match BigInt (PNumber (NumInt 1000000)) with
      | Throw e => Throw e
      | Normal LOVELACE_PER_ADA =>
          let adaIntegerPart := Z.quot lovelaceBigInt LOVELACE_PER_ADA in
          let adaFractionalPart := Z.rem lovelaceBigInt LOVELACE_PER_ADA in
          let integerStr := BigInt_toString adaIntegerPart in
          let fractionalStr := padStart 6 "0" (BigInt_toString adaFractionalPart) in
          Normal (integerStr ++ "." ++ fractionalStr ++ " ADA")
      end
  end.

(** ** The wallet card's state and the outside world *)

(** The values [txStatus.step] takes in the component. *)
Inductive Step : Type :=
| idle | building | signing | submitting | confirming | success | error.

Record TransactionStatus : Type := {
  step : Step;
  message : string;
  txHash : option string   (* [None] is [null] *)
}.

Definition initialTxStatus : TransactionStatus :=
  {| step := idle; message := "No transaction started yet."; txHash := None |}.

(** A thrown value, as far as the handlers look at it:
    [err?.info?.message] and [err?.message] ([None]: undefined). *)
Record Thrown : Type := {
  info_message : option string;
  own_message : option string
}.

(** How an awaited promise settles. *)
Inductive outcome (A : Type) : Type :=
| Resolved (a : A)
| Rejected (e : Thrown).
Arguments Resolved {A} a.
Arguments Rejected {A} e.

Record Asset : Type := { unit_ : string; quantity : string }.

(** The connected wallet: what each call of the wallet API settles to. *)
Record Wallet : Type := {
  wallet_getChangeAddress : outcome string;
  wallet_getBalance : outcome (list Asset);
  wallet_signTx : string -> outcome string;
  wallet_submitTx : string -> outcome string
}.

(** The body posted to the collector. *)
Record Notification : Type := {
  n_txHash : string;
  n_walletAddress : string;
  n_network : string
}.

(** What the component closes over: the [useWallet()] values, the
    transaction builder ([new Transaction], [sendLovelace], [build]) and
    [fetch]. *)
Record Env : Type := {
  connected : bool;
  wallet : option Wallet;   (* [None]: a falsy [wallet] *)
  tx_build : string -> string -> outcome string;
  fetch : string -> Notification -> outcome unit
}.

(** The [useState] cells of [WalletCard]. *)
Record CardState : Type := {
  address : string;
  balanceLovelace : string;
  isLoadingBalance : bool;
  txStatus : TransactionStatus;
  isTxRunning : bool
}.

Definition initialCard : CardState :=
  {| address := ""; balanceLovelace := "0"; isLoadingBalance := false;
     txStatus := initialTxStatus; isTxRunning := false |}.

(** What a handler does that can be observed: state updates, console
    output, the timer. *)
Inductive Effect : Type :=
| SetAddress (a : string)
| SetBalanceLovelace (q : string)
| SetIsLoadingBalance (b : bool)
| SetTxStatus (s : TransactionStatus)
| SetIsTxRunning (b : bool)
| ConsoleError (label : string) (e : Thrown)
| Sleep (ms : Z).

Definition apply (e : Effect) (st : CardState) : CardState :=
  match e with
  | SetAddress a =>
      {| address := a; balanceLovelace := balanceLovelace st;
         isLoadingBalance := isLoadingBalance st; txStatus := txStatus st;
         isTxRunning := isTxRunning st |}
  | SetBalanceLovelace q =>
      {| address := address st; balanceLovelace := q;
         isLoadingBalance := isLoadingBalance st; txStatus := txStatus st;
         isTxRunning := isTxRunning st |}
  | SetIsLoadingBalance b =>
      {| address := address st; balanceLovelace := balanceLovelace st;
         isLoadingBalance := b; txStatus := txStatus st;
         isTxRunning := isTxRunning st |}
  | SetTxStatus s =>
      {| address := address st; balanceLovelace := balanceLovelace st;
         isLoadingBalance := isLoadingBalance st; txStatus := s;
         isTxRunning := isTxRunning st |}
  | SetIsTxRunning b =>
      {| address := address st; balanceLovelace := balanceLovelace st;
         isLoadingBalance := isLoadingBalance st; txStatus := txStatus st;
         isTxRunning := b |}
  | ConsoleError _ _ | Sleep _ => st
  end.

(** The states the card goes through while the effects happen in order. *)
Fixpoint states (st : CardState) (l : list Effect) : list CardState :=
  match l with
  | [] => []
  | e :: r => apply e st :: states (apply e st) r
  end%list.

(** The transaction statuses set, in order. *)
Fixpoint statuses (l : list Effect) : list TransactionStatus :=
  match l with
  | [] => []
  | SetTxStatus s :: r => s :: statuses r
  | _ :: r => statuses r
  end%list.

(** ** Async handlers: state, effects and rejection

    A handler is a function from the state of the card when it is called
    to its completion, the state it leaves and the effects it had, in
    order.  The cells a handler reads ([isTxRunning]) are read once, when
    it is called; the values it closes over ([connected], [wallet]) are
    those of [Env]. *)

Record Run (A : Type) : Type := {
  result : outcome A;
  final : CardState;
  effects : list Effect
}.
Arguments result {A} r.
Arguments final {A} r.
Arguments effects {A} r.

Definition M (A : Type) : Type := CardState -> Run A.

Definition ret {A} (a : A) : M A :=
  fun st => {| result := Resolved a; final := st; effects := [] |}.

Definition bind {A B} (m : M A) (k : A -> M B) : M B :=
  fun st =>
    match m st with
    | {| result := Resolved a; final := st1; effects := l1 |} =>
        match k a st1 with
        | {| result := r; final := st2; effects := l2 |} =>
            {| result := r; final := st2; effects := (l1 ++ l2)%list |}
        end
    | {| result := Rejected e; final := st1; effects := l1 |} =>
        {| result := Rejected e; final := st1; effects := l1 |}
    end.

Notation "x <- m ;; k" := (bind m (fun x => k))
  (at level 61, m at next level, right associativity).
Notation "m ;; k" := (bind m (fun _ => k))
  (at level 61, right associativity).

(** [await p] *)
Definition await {A} (p : outcome A) : M A :=
  fun st => {| result := p; final := st; effects := [] |}.

Definition emit (e : Effect) : M unit :=
  fun st => {| result := Resolved tt; final := apply e st; effects := [e] |}.

(** [try { m } catch (err) { h err }] *)
Definition try_catch {A} (m : M A) (h : Thrown -> M A) : M A :=
  fun st =>
    match m st with
    | {| result := Resolved a; final := st1; effects := l1 |} =>
        {| result := Resolved a; final := st1; effects := l1 |}
    | {| result := Rejected e; final := st1; effects := l1 |} =>
        match h e st1 with
        | {| result := r; final := st2; effects := l2 |} =>
            {| result := r; final := st2; effects := (l1 ++ l2)%list |}
        end
    end.

(** [try { m } finally { f }]: [f] runs whatever [m] did; the completion
    is the one of [m] unless [f] itself throws. *)
Definition try_finally {A} (m : M A) (f : M unit) : M A :=
  fun st =>
    match m st with
    | {| result := r; final := st1; effects := l1 |} =>
        match f st1 with
        | {| result := Resolved _; final := st2; effects := l2 |} =>
            {| result := r; final := st2; effects := (l1 ++ l2)%list |}
        | {| result := Rejected e; final := st2; effects := l2 |} =>
            {| result := Rejected e; final := st2; effects := (l1 ++ l2)%list |}
        end
    end.

(** [a || b] on optional strings: the first one that is a non-empty
    string. *)
Definition or_message (a : option string) (b : option string) : option string :=
  match a with
  | Some s => if String.eqb s "" then b else a
  | None => b
  end.

Definition or_default (a : option string) (d : string) : string :=
  match a with
  | Some s => if String.eqb s "" then d else s
  | None => d
  end.

Section Handlers.
Variable env : Env.

(** [async function loadAddress()] *)
Definition loadAddress : M unit :=
  fun st =>
    match wallet env with
    | None => ret tt st
    | Some w =>
        try_catch
          (changeAddress <- await (wallet_getChangeAddress w) ;;
           emit (SetAddress changeAddress))
          (fun err =>
             emit (ConsoleError "Failed to get change address:" err) ;;
             emit (SetAddress "Could not load address. Check wallet connection."))
          st
    end.

(** [async function getBalance()] *)
Definition getBalance : M unit :=
  fun st =>
    match connected env, wallet env with
    | true, Some w =>
        try_finally
          (try_catch
             (emit (SetIsLoadingBalance true) ;;
              assets <- await (wallet_getBalance w) ;;
              let lovelaceAsset :=
                find (fun asset => String.eqb (unit_ asset) "lovelace") assets in
              let quantity :=
                match lovelaceAsset with
                | Some a => quantity a
                | None => "0"
                end in
              emit (SetBalanceLovelace quantity))
             (fun err =>
                emit (ConsoleError "Failed to get balance:" err) ;;
                emit (SetBalanceLovelace "0")))
          (emit (SetIsLoadingBalance false))
          st
    | _, _ => ret tt st
    end.

(** [async function sendToSelf()] *)
Definition sendToSelf : M unit :=
  fun st =>
    match isTxRunning st with
    | true => ret tt st
    | false =>
    match connected env, wallet env with
    | true, Some w =>
        try_finally
          (try_catch
             (emit (SetIsTxRunning true) ;;
              emit (SetTxStatus
                      {| step := building;
                         message := "Building transaction to send 1 ADA to your own address...";
                         txHash := None |}) ;;
              changeAddress <- await (wallet_getChangeAddress w) ;;
              let ONE_ADA_IN_LOVELACE := "1000000" in
              unsignedTx <- await (tx_build env changeAddress ONE_ADA_IN_LOVELACE) ;;
              emit (SetTxStatus
                      {| step := signing;
                         message := "Please sign the transaction in your wallet...";
                         txHash := None |}) ;;
              signedTx <- await (wallet_signTx w unsignedTx) ;;
              emit (SetTxStatus
                      {| step := submitting;
                         message := "Submitting transaction to the Cardano testnet...";
                         txHash := None |}) ;;
              txHash <- await (wallet_submitTx w signedTx) ;;
              emit (SetTxStatus
                      {| step := confirming;
                         message := "Transaction submitted! Waiting briefly before updating balance...";
                         txHash := Some txHash |}) ;;
              emit (Sleep 8000) ;;
              getBalance ;;
              emit (SetTxStatus
                      {| step := success;
                         message := "Transaction successful!";
                         txHash := Some txHash |}) ;;
              try_catch
                (await (fetch env "http://localhost:4000/api/transactions"
                          {| n_txHash := txHash;
                             n_walletAddress := changeAddress;
                             n_network := "preprod" |}))
                (fun apiErr =>
                   emit (ConsoleError "Failed to notify backend about transaction:" apiErr)))
             (fun err =>
                emit (ConsoleError "Transaction error:" err) ;;
                emit (SetTxStatus
                        {| step := error;
                           message :=
                             or_default
                               (or_message (info_message err) (own_message err))
                               "Transaction failed. Please check your wallet and try again.";
                           txHash := None |})))
          (emit (SetIsTxRunning false))
          st
    | _, _ => ret tt st
    end
    end.

End Handlers.

(** ** What the components render *)

(** The output of the [TransactionStatus] component: the step, the
    message and, when a hash is shown, the link (its [href] and its
    text). *)
Record StatusView : Type := {
  view_step : Step;
  view_message : string;
  view_link : option (string * string)
}.

(** [function TransactionStatus({ status })].  [status] is [None] when the
    prop is falsy; the hash is shown when it is truthy: not [null] and not
    the empty string. *)
Definition renderTransactionStatus (status : option TransactionStatus) : StatusView :=
  let s := match status with Some s => s | None => initialTxStatus end in
  let txUrl :=
    match txHash s with
    | Some h =>
        if String.eqb h "" then None
        else Some ("https://preprod.cardanoscan.io/transaction/" ++ h)
    | None => None
    end in
  {| view_step := step s;
     view_message := message s;
     view_link :=
       match txHash s, txUrl with
       | Some h, Some url => Some (url, h)
       | _, _ => None
       end |}.

(** The output of [WalletCard]: the two fields, the two buttons and the
    status block. *)
Record CardView : Type := {
  view_address : string;
  view_balance : string;
  balance_disabled : bool;
  balance_label : string;
  send_disabled : bool;
  send_label : string;
  view_status : StatusView
}.

(** The body of [WalletCard] from [if (!connected) return null] on:
    [None] is [null]; the formatter is called on every render of a
    connected card, so what it throws, the render throws. *)
Definition renderWalletCard (env : Env) (st : CardState) : completion (option CardView) :=
  if negb (connected env) then Normal None
  else
    match formatLovelaceToAda (PString (balanceLovelace st)) with
    | Throw e => Throw e
    | Normal formattedAda =>
        Normal (Some
          {| view_address := address st;
             view_balance :=
               if isLoadingBalance st then "Loading balance..."
               else balanceLovelace st ++ " lovelace (" ++ formattedAda ++ ")";
             balance_disabled := isLoadingBalance st;
             balance_label :=
               if isLoadingBalance st then "Checking..." else "Check Balance";
             send_disabled := isTxRunning st;
             send_label :=
               if isTxRunning st then "Sending..." else "Send 1 ADA to Self";
             view_status := renderTransactionStatus (Some (txStatus st)) |})
    end.

End App.

(* ================================================================== *)
(** * Part II b. The connection card (client) *)
(* ================================================================== *)

Module ConnectionCard.
Import Js App.

(** [window], as far as [isWalletInstalled] looks at it: [None] when
    [window] is undefined; [cardano] is [None] when [window.cardano] is
    falsy, else the value found under each key. *)
Record Window : Type := {
  cardano : option (string -> value)
}.

(** What the card closes over: [window] and the [connect] and
    [disconnect] of [useWallet()]. *)
Record Env : Type := {
  window : option Window;
  connect : string -> outcome unit;
  disconnect : outcome unit
}.

(** What a handler of the card does, in order. *)
Inductive Effect : Type :=
| SetStatusMessage (m : string)
| CallConnect (walletId : string)
| CallDisconnect
| ConsoleError (label : string) (e : Thrown).

(** A handler: how it completes and what it did. *)
Definition T (A : Type) : Type := (outcome A * list Effect)%type.

Definition ret {A} (a : A) : T A := (Resolved a, []).

Definition bind {A B} (m : T A) (k : A -> T B) : T B :=
  match m with
  | (Resolved a, l1) =>
      match k a with
      | (r, l2) => (r, (l1 ++ l2)%list)
      end
  | (Rejected e, l1) => (Rejected e, l1)
  end.

Definition try_catch {A} (m : T A) (h : Thrown -> T A) : T A :=
  match m with
  | (Resolved a, l1) => (Resolved a, l1)
  | (Rejected e, l1) =>
      match h e with
      | (r, l2) => (r, (l1 ++ l2)%list)
      end
  end.

Definition emit (e : Effect) : T unit := (Resolved tt, [e]).

(** A call of an outside function: it is recorded, then it settles. *)
Definition call {A} (e : Effect) (p : outcome A) : T A := (p, [e]).

Declare Scope card_scope.
Notation "x <- m ;; k" := (bind m (fun x => k))
  (at level 61, m at next level, right associativity) : card_scope.
Notation "m ;; k" := (bind m (fun _ => k))
  (at level 61, right associativity) : card_scope.
Local Open Scope card_scope.

(** The status message shown after the effects, starting from [m]. *)
Fixpoint statusMessage (m : string) (l : list Effect) : string :=
  match l with
  | [] => m
  | SetStatusMessage m' :: r => statusMessage m' r
  | _ :: r => statusMessage m r
  end%list.

(** The calls of [connect], in order. *)
Fixpoint connects (l : list Effect) : list string :=
  match l with
  | [] => []
  | CallConnect w :: r => w :: connects r
  | _ :: r => connects r
  end%list.

Section Handlers.
Variable env : Env.

(** [function isWalletInstalled(browserKey)] *)
Definition isWalletInstalled (browserKey : string) : bool :=
  match window env with
  | None => false
  | Some w =>
      match cardano w with
      | None => false
      | Some entries => truthy (entries browserKey)
      end
  end.

(** The key [handleConnect] looks up for a wallet id. *)
Definition browserKey (walletId : string) : string :=
  if String.eqb walletId "flint-wallet" then "flint" else toLowerCase walletId.

(** [async function handleConnect(walletId)] *)
Definition handleConnect (walletId : string) : T unit :=
  try_catch
    (if negb (isWalletInstalled (browserKey walletId)) then
       emit (SetStatusMessage
               ("Wallet " ++ dquote ++ walletId ++ dquote
                ++ " is not installed. Please install it first from its official website."))
     else
       emit (SetStatusMessage ("Connecting to " ++ walletId ++ "...")) ;;
       call (CallConnect walletId) (connect env walletId) ;;
       emit (SetStatusMessage ("Connected to " ++ walletId ++ "!")))
    (fun err =>
       emit (ConsoleError "Connection error:" err) ;;
       emit (SetStatusMessage
               "Failed to connect. Maybe you rejected the connection or there was a network issue.")).

(** [async function handleDisconnect()] *)
Definition handleDisconnect : T unit :=
  try_catch
    (call CallDisconnect (disconnect env) ;;
     emit (SetStatusMessage "Disconnected from wallet."))
    (fun err =>
       emit (ConsoleError "Disconnect error:" err) ;;
       emit (SetStatusMessage "Error while disconnecting. Please reload the page.")).

End Handlers.

End ConnectionCard.


(* ================================================================== *)
(** * Part III. The transaction collector (server) *)
(* ================================================================== *)

Module Server.
Import Js.

(** A stored transaction.  [createdAt] is the instant of creation in
    milliseconds since the epoch; it stands for the ISO string of the
    in-memory records and for the date of the Mongo documents alike. *)
Record TxRecord : Type := {
  txHash : string;
  walletAddress : value;
  network : value;
  createdAt : Z
}.

(** The process: the [mongoConnected] flag, the [inMemoryTxHistory] array,
    and the documents of the [Transaction] collection in MongoDB, in the
    order they were inserted. *)
Record State : Type := {
  mongoConnected : bool;
  inMemoryTxHistory : list TxRecord;
  transactions : list TxRecord
}.

(** What Mongoose's cast to [String] needs to know of a value and the
    model of values leaves out: [number_text] is the text (first code unit
    and rest) that [toString()] gives a number that is neither NaN nor an
    integer below 10^21 in magnitude; [object_text] is, for an object that
    carries a non-empty string [_id], that string, and [None] for any other
    object and for an array, which the cast refuses. *)
Record Foreign : Type := {
  number_text : ascii * string;
  object_text : option (ascii * string)
}.

(** What the outside decides while one request is handled: the clock
    reading, whether the call to the Mongo driver rejects, and what the
    cast to [String] is told about the request's [walletAddress] and
    [network]. *)
Record Call : Type := {
  now : Z;
  mongo_fails : bool;
  cast_walletAddress : Foreign;
  cast_network : Foreign
}.

(** [req.body], when there is one. *)
Record ReqBody : Type := {
  b_txHash : value;
  b_walletAddress : value;
  b_network : value
}.

Definition emptyBody : ReqBody :=
  {| b_txHash := VPrim PUndefined;
     b_walletAddress := VPrim PUndefined;
     b_network := VPrim PUndefined |}.

Inductive ResBody : Type :=
| HealthBody (ok : bool) (message : string) (mongoConnected : bool)
| ListBody (ok : bool) (source : string) (items : list TxRecord)
| ItemBody (ok : bool) (source : string) (item : TxRecord)
| MessageBody (ok : bool) (message : string).

Record Response : Type := {
  status : Z;
  body : ResBody
}.

(** Uses of a backing store by a handler. *)
Inductive Access : Type :=
| MongoFind
| MongoCreate
| MemoryRead
| MemoryPush.

Record Handled : Type := {
  response : Response;
  next : State;
  accesses : list Access
}.

Definition typeof (v : value) : string :=
  match v with
  | VPrim PUndefined => "undefined"
  | VPrim PNull => "object"
  | VPrim (PBool _) => "boolean"
  | VPrim (PNumber _) => "number"
  | VPrim (PString _) => "string"
  | VPrim (PBigInt _) => "bigint"
  | VObject => "object"
  end.

(** ** Start-up *)

(** The process right after the module is loaded; [db] is what the
    database holds. *)
Definition initial (db : list TxRecord) : State :=
  {| mongoConnected := false; inMemoryTxHistory := []; transactions := db |}.

Definition set_mongoConnected (b : bool) (srv : State) : State :=
  {| mongoConnected := b;
     inMemoryTxHistory := inMemoryTxHistory srv;
     transactions := transactions srv |}.

(** How [mongoose.connect] has settled, if it has. *)
Inductive Connect : Type :=
| connect_pending
| connect_resolved
| connect_rejected.

(** The process once the start-up code ran and the connection promise is
    in the given state. *)
Definition startup (MONGODB_URI : string) (c : Connect) (db : list TxRecord) : State :=
  if truthy_prim (PString MONGODB_URI) then
    match c with
    | connect_pending => initial db
    | connect_resolved => set_mongoConnected true (initial db)
    | connect_rejected => set_mongoConnected false (initial db)
    end
  else initial db.

(** ** The Mongo queries the handlers issue

    The driver is not part of the repository.  A query is given its
    documented meaning on the list of documents; every call may reject. *)

(** [d] goes in front of the first document that is not newer. *)
Fixpoint insert_desc (d : TxRecord) (l : list TxRecord) : list TxRecord :=
  match l with
  | [] => [d]
  | x :: r => if createdAt x <=? createdAt d then d :: l else x :: insert_desc d r
  end%list.

(** [.sort({ createdAt: -1 })] *)
Definition sort_desc (l : list TxRecord) : list TxRecord :=
  fold_right insert_desc [] l.

(** [Transaction.find({}).sort({ createdAt: -1 }).limit(20).lean()] *)
Definition find_latest (docs : list TxRecord) : list TxRecord :=
  firstn 20 (sort_desc docs).

(** *** The schema: [walletAddress] and [network] of type [String] *)

Definition text (t : ascii * string) : string := String (fst t) (snd t).

(** Number.prototype.toString() *)
Definition Number_toString (foreign : ascii * string) (n : number) : string :=
  match n with
  | NumInt z => if Z.abs z <? 10 ^ 21 then BigInt_toString z else text foreign
  | NumNaN => "NaN"
  | NumOther => text foreign
  end.

(** Mongoose's cast of a value to the schema type [String]: [null] and
    [undefined] are left as they are, a string too; a boolean, a number or
    a BigInt gives its [toString()]; an object with a string [_id] gives
    that string; any other object and an array give a CastError
    ([None]). *)
Definition castString (f : Foreign) (v : value) : option value :=
  match v with
  | VPrim PUndefined | VPrim PNull => Some v
  | VPrim (PString _) => Some v
  | VPrim (PBool b) => Some (VPrim (PString (if b then "true" else "false")))
  | VPrim (PNumber n) => Some (VPrim (PString (Number_toString (number_text f) n)))
  | VPrim (PBigInt z) => Some (VPrim (PString (BigInt_toString z)))
  | VObject => option_map (fun t => VPrim (PString (text t))) (object_text f)
  end.

(** [Transaction.create(txRecord)] with [timestamps: true]: the document
    as the schema makes it, its fields cast to [String], or [None] when
    the validation of the document fails on a cast. *)
Definition created (c : Call) (txHash : string) (walletAddress network : value)
  : option TxRecord :=
  match castString (cast_walletAddress c) walletAddress,
        castString (cast_network c) network with
  | Some wa, Some nw =>
      Some {| txHash := txHash; walletAddress := wa; network := nw;
              createdAt := now c |}
  | _, _ => None
  end.

(** [a.slice(-n)] *)
Definition slice_last {A} (n : nat) (a : list A) : list A :=
  skipn (List.length a - n)%nat a.

(** ** Routes *)

(** [GET /api/health] *)
Definition get_health (srv : State) : Handled :=
  {| response :=
       {| status := 200;
          body := HealthBody true "Cardano dApp backend is running."
                    (mongoConnected srv) |};
     next := srv;
     accesses := [] |}.

(** [GET /api/transactions] *)
Definition get_transactions (srv : State) (c : Call) : Handled :=
  if mongoConnected srv then
    if mongo_fails c then
      (* catch *)
      {| response :=
           {| status := 500;
              body := MessageBody false "Failed to fetch transaction history." |};
         next := srv;
         accesses := [MongoFind] |}
    else
      let txs := find_latest (transactions srv) in
      {| response := {| status := 200; body := ListBody true "mongo" txs |};
         next := srv;
         accesses := [MongoFind] |}
  else
    let sliced := rev (slice_last 20 (inMemoryTxHistory srv)) in
    {| response := {| status := 200; body := ListBody true "memory" sliced |};
       next := srv;
       accesses := [MemoryRead] |}.

(** The test of the validation [if]:
    [!txHash || typeof txHash !== "string" || !txHash.trim()]. *)
Definition invalid_txHash (txHash : value) : bool :=
  negb (truthy txHash)
  || negb (String.eqb (typeof txHash) "string")
  || match txHash with
     | VPrim (PString s) => negb (truthy_prim (PString (trim s)))
     | _ => true   (* not reached: the second disjunct holds *)
     end.

(** [txHash.trim()] where [txHash] passed the validation. *)
Definition trimmed (txHash : value) : string :=
  match txHash with
  | VPrim (PString s) => trim s
  | _ => ""
  end.

(** [req.body || {}] *)
Definition body_or_empty (req_body : option ReqBody) : ReqBody :=
  match req_body with
  | Some b => b
  | None => emptyBody
  end.

(** [POST /api/transactions] *)
Definition post_transactions (srv : State) (c : Call) (req_body : option ReqBody)
  : Handled :=
  let b := body_or_empty req_body in
  let txHash := b_txHash b in
  let walletAddress := b_walletAddress b in
  let network := b_network b in
  if invalid_txHash txHash then
    {| response :=
         {| status := 400;
            body := MessageBody false
                      "txHash is required and must be a non-empty string." |};
       next := srv;
       accesses := [] |}
  else
    let tx_txHash := trimmed txHash in
    let tx_walletAddress := or_value walletAddress (VPrim (PString "")) in
    let tx_network := or_value network (VPrim (PString "preprod")) in
    if mongoConnected srv then
      match created c tx_txHash tx_walletAddress tx_network with
      | None =>
          (* catch: the document is not valid *)
          {| response :=
               {| status := 500;
                  body := MessageBody false "Failed to save transaction." |};
             next := srv;
             accesses := [MongoCreate] |}
      | Some doc =>
          if mongo_fails c then
            (* catch: the driver rejects *)
            {| response :=
                 {| status := 500;
                    body := MessageBody false "Failed to save transaction." |};
               next := srv;
               accesses := [MongoCreate] |}
          else
            {| response := {| status := 201; body := ItemBody true "mongo" doc |};
               next := {| mongoConnected := mongoConnected srv;
                          inMemoryTxHistory := inMemoryTxHistory srv;
                          transactions := (transactions srv ++ [doc])%list |};
               accesses := [MongoCreate] |}
      end
    else
      let withMeta :=
        {| txHash := tx_txHash; walletAddress := tx_walletAddress;
           network := tx_network; createdAt := now c |} in
      {| response := {| status := 201; body := ItemBody true "memory" withMeta |};
         next := {| mongoConnected := mongoConnected srv;
                    inMemoryTxHistory := (inMemoryTxHistory srv ++ [withMeta])%list;
                    transactions := transactions srv |};
         accesses := [MemoryPush] |}.

(** ** The process over time *)

(** What happens to the process: the connection promise settles, or a
    request is handled. *)
Inductive Event : Type :=
| Settled (ok : bool)
| Get (c : Call)
| Post (c : Call) (req_body : option ReqBody).

Definition handle (srv : State) (e : Event) : State :=
  match e with
  | Settled ok => set_mongoConnected ok srv
  | Get c => next (get_transactions srv c)
  | Post c b => next (post_transactions srv c b)
  end.

Definition run (srv : State) (es : list Event) : State :=
  fold_left handle es srv.

(** The records of a list response (none in any other response). *)
Definition items_of (r : Response) : list TxRecord :=
  match body r with
  | ListBody _ _ items => items
  | _ => []
  end.

Definition ok_of (r : Response) : bool :=
  match body r with
  | HealthBody ok _ _ | ListBody ok _ _ | ItemBody ok _ _ | MessageBody ok _ => ok
  end.

End Server.

(* ================================================================== *)
(** * Part IV. What the specification says, in its own words *)
(* ================================================================== *)

Module Spec.
Import Js.

(** Zero-padding to six digits. *)
Definition pad6 (s : string) : string :=
  string_of_list_ascii (repeat "0"%char (6 - String.length s)) ++ s.

(** The specification's formula for the formatted balance:
    [floor(m/1e6) + "." + pad6(m mod 1e6)]. *)
Definition formatted (m : Z) : string :=
  BigInt_toString (m / 1000000) ++ "." ++ pad6 (BigInt_toString (m mod 1000000)).

(** The create operation rejects a hash that is missing, not a string, or
    empty after trimming. *)
Definition rejected_txHash (v : value) : Prop :=
  match v with
  | VPrim (PString s) => trim s = ""
  | _ => True
  end.

End Spec.

(* ================================================================== *)
(** * Part V. Predicates used in the statements *)
(* ================================================================== *)

Module Pred.
Import Js.

Definition isDigit (c : ascii) : bool :=
  (48 <=? Z.of_N (N_of_ascii c)) && (Z.of_N (N_of_ascii c) <=? 57).

Fixpoint allDigits (s : string) : bool :=
  match s with
  | EmptyString => true
  | String c r => isDigit c && allDigits r
  end.

Fixpoint allWhiteSpace (s : string) : bool :=
  match s with
  | EmptyString => true
  | String c r => isWhiteSpace c && allWhiteSpace r
  end.

(** The steps in which the transaction has not been submitted yet. *)
Definition before_submission (s : App.Step) : bool :=
  match s with
  | App.idle | App.building | App.signing | App.submitting => true
  | _ => false
  end.

(** From one status to the next, a hash that is set stays the same. *)
Fixpoint never_cleared (l : list App.TransactionStatus) : Prop :=
  match l with
  | a :: (b :: _) as r =>
      (forall h, App.txHash a = Some h -> App.txHash b = Some h) /\ never_cleared r
  | _ => True
  end%list.

(** A record is at least as new as the ones after it; as old as. *)
Definition newest_first (l : list Server.TxRecord) : Prop :=
  StronglySorted (fun a b => Server.createdAt b <= Server.createdAt a) l.

Definition oldest_first (l : list Server.TxRecord) : Prop :=
  StronglySorted (fun a b => Server.createdAt a <= Server.createdAt b) l.

(** The clock does not go back: starting from [t], the readings taken
    while the events are handled never decrease. *)
Fixpoint clock_monotone (t : Z) (es : list Server.Event) : Prop :=
  match es with
  | [] => True
  | Server.Settled _ :: r => clock_monotone t r
  | Server.Get c :: r => t <= Server.now c /\ clock_monotone (Server.now c) r
  | Server.Post c _ :: r => t <= Server.now c /\ clock_monotone (Server.now c) r
  end%list.

(** A hash as the create operation stores it: trimmed and not empty. *)
Definition hash_ok (h : string) : Prop := trim h = h /\ h <> "".

Definition store_ok (srv : Server.State) : Prop :=
  Forall (fun r => hash_ok (Server.txHash r)) (Server.inMemoryTxHistory srv)
  /\ Forall (fun r => hash_ok (Server.txHash r)) (Server.transactions srv).

(** The events are requests only: the connection promise does not
    settle among them. *)
Fixpoint requests_only (es : list Server.Event) : bool :=
  match es with
  | [] => true
  | Server.Settled _ :: _ => false
  | _ :: r => requests_only r
  end%list.

(** The stores a handler touched are all in memory. *)
Definition memory_only (l : list Server.Access) : Prop :=
  Forall (fun a => a = Server.MemoryRead \/ a = Server.MemoryPush) l.

(** A create request with a string hash, and the record it stands for. *)
Record Create : Type := {
  at_call : Server.Call;
  with_hash : string;
  with_wallet : value;
  with_network : value
}.

Definition create_event (a : Create) : Server.Event :=
  Server.Post (at_call a)
    (Some {| Server.b_txHash := VPrim (PString (with_hash a));
             Server.b_walletAddress := with_wallet a;
             Server.b_network := with_network a |}).

Definition create_record (a : Create) : Server.TxRecord :=
  {| Server.txHash := trim (with_hash a);
     Server.walletAddress := or_value (with_wallet a) (VPrim (PString ""));
     Server.network := or_value (with_network a) (VPrim (PString "preprod"));
     Server.createdAt := Server.now (at_call a) |}.

(** The body the collector parses out of the JSON text of a
    notification: three string fields. *)
Definition body_of_notification (n : App.Notification) : option Server.ReqBody :=
  Some {| Server.b_txHash := VPrim (PString (App.n_txHash n));
          Server.b_walletAddress := VPrim (PString (App.n_walletAddress n));
          Server.b_network := VPrim (PString (App.n_network n)) |}.

(** A record as the create operation builds it: a trimmed, non-empty
    hash and a network label that is not falsy. *)
Definition record_ok (r : Server.TxRecord) : Prop :=
  hash_ok (Server.txHash r) /\ truthy (Server.network r) = true.

Definition records_ok (srv : Server.State) : Prop :=
  Forall record_ok (Server.inMemoryTxHistory srv)
  /\ Forall record_ok (Server.transactions srv).

(** The waits among the effects of a handler. *)
Fixpoint sleeps (l : list App.Effect) : list Z :=
  match l with
  | [] => []
  | App.Sleep ms :: r => ms :: sleeps r
  | _ :: r => sleeps r
  end%list.

(** The text shown when a failed transaction carries no message. *)
Definition default_failure : string :=
  "Transaction failed. Please check your wallet and try again.".

End Pred.

(** Sample data for the worked instances. *)
Module Demo.
Import Js App.

Definition demo_wallet (balance : outcome (list Asset)) : Wallet :=
  {| wallet_getChangeAddress := Resolved "addr_test1";
     wallet_getBalance := balance;
     wallet_signTx := fun u => Resolved ("signed:" ++ u);
     wallet_submitTx := fun _ => Resolved "f00d" |}.

Definition demo_env (w : Wallet) (notify : outcome unit) : Env :=
  {| connected := true;
     wallet := Some w;
     tx_build := fun a q => Resolved ("tx:" ++ a ++ ":" ++ q);
     fetch := fun _ _ => notify |}.

Definition boom : Thrown :=
  {| info_message := None; own_message := Some "network down" |}.

Definition tx (h : string) (t : Z) : Server.TxRecord :=
  {| Server.txHash := h;
     Server.walletAddress := VPrim (PString "");
     Server.network := VPrim (PString "preprod");
     Server.createdAt := t |}.

Definition post_of (h : value) : option Server.ReqBody :=
  Some {| Server.b_txHash := h;
          Server.b_walletAddress := VPrim PUndefined;
          Server.b_network := VPrim PUndefined |}.

Definition plain : Server.Foreign :=
  {| Server.number_text := ("1"%char, "e+21");
     Server.object_text := None |}.

Definition at_ (t : Z) (fails : bool) : Server.Call :=
  {| Server.now := t; Server.mongo_fails := fails;
     Server.cast_walletAddress := plain; Server.cast_network := plain |}.

Definition on_memory (l : list Server.TxRecord) : Server.State :=
  {| Server.mongoConnected := false;
     Server.inMemoryTxHistory := l;
     Server.transactions := [] |}.

Definition on_mongo (mem docs : list Server.TxRecord) : Server.State :=
  {| Server.mongoConnected := true;
     Server.inMemoryTxHistory := mem;
     Server.transactions := docs |}.

Definition offline_env : Env :=
  {| connected := false;
     wallet := Some (demo_wallet (Resolved nil));
     tx_build := fun a _ => Resolved a;
     fetch := fun _ _ => Resolved tt |}.

Definition browser (keys : list string) : ConnectionCard.Env :=
  {| ConnectionCard.window :=
       Some {| ConnectionCard.cardano :=
                 Some (fun k => if existsb (String.eqb k) keys
                                then VObject else VPrim PUndefined) |};
     ConnectionCard.connect := fun _ => Resolved tt;
     ConnectionCard.disconnect := Rejected boom |}.

End Demo.

(* ================================================================== *)
(** * Part VI. Facts about the built-ins *)
(* ================================================================== *)

Module JsFacts.
Import Js Pred.

Lemma digitChar_spec d :
  0 <= d < 10 -> digitValue 10 (digitChar d) = Some d /\ isDigit (digitChar d) = true.
Proof.
  intros H.
  assert (E : d = 0 \/ d = 1 \/ d = 2 \/ d = 3 \/ d = 4 \/ d = 5 \/ d = 6
              \/ d = 7 \/ d = 8 \/ d = 9) by lia.
  repeat (destruct E as [-> | E]; [split; reflexivity|]).
  subst d; split; reflexivity.
Qed.

Lemma isDigit_not_space c : isDigit c = true -> isWhiteSpace c = false.
Proof.
  destruct c as [[] [] [] [] [] [] [] []]; try discriminate; reflexivity.
Qed.

(** A digit is none of the characters [StringToBigInt] dispatches on. *)
Lemma isDigit_not_marker c :
  isDigit c = true ->
  c <> "+"%char /\ c <> "-"%char /\
  (Ascii.eqb c "x" || Ascii.eqb c "X" = false)%bool /\
  (Ascii.eqb c "o" || Ascii.eqb c "O" = false)%bool /\
  (Ascii.eqb c "b" || Ascii.eqb c "B" = false)%bool.
Proof.
  destruct c as [[] [] [] [] [] [] [] []]; try discriminate;
    intros _; repeat split; discriminate.
Qed.

Lemma trimStart_no_space c r :
  isWhiteSpace c = false -> trimStart (String c r) = String c r.
Proof. intros H; simpl; now rewrite H. Qed.

Lemma trimEnd_cons_nonspace c r :
  isWhiteSpace c = false -> trimEnd (String c r) = String c (trimEnd r).
Proof. intros H; simpl; rewrite H; now destruct (trimEnd r). Qed.

Lemma trimEnd_allDigits s : allDigits s = true -> trimEnd s = s.
Proof.
  induction s as [|c r IH]; simpl; [reflexivity|].
  intros H; apply andb_prop in H as [Hc Hr].
  rewrite (IH Hr).
  destruct r; [now rewrite (isDigit_not_space _ Hc)|reflexivity].
Qed.

Lemma trim_allDigits s : allDigits s = true -> trim s = s.
Proof.
  intros H; unfold trim.
  destruct s as [|c r]; [reflexivity|].
  pose proof H as H'; simpl in H'; apply andb_prop in H' as [Hc _].
  rewrite (trimStart_no_space _ _ (isDigit_not_space _ Hc)).
  now apply trimEnd_allDigits.
Qed.

(** On a non-empty string of decimal digits the literal is read in
    radix 10. *)
Lemma StringToBigInt_allDigits s :
  s <> "" -> allDigits s = true -> StringToBigInt s = parseDigits 10 0 s.
Proof.
  intros Hne H; unfold StringToBigInt.
  rewrite (trim_allDigits _ H).
  destruct s as [|c r]; [congruence|].
  pose proof H as H'; simpl in H'; apply andb_prop in H' as [Hc Hr].
  destruct (isDigit_not_marker _ Hc) as (Hp & Hm & _).
  assert (G : parseInteger 10 (String c r) = parseDigits 10 0 (String c r))
    by reflexivity.
  destruct r as [|x r'].
  - destruct c as [[] [] [] [] [] [] [] []]; try discriminate; reflexivity.
  - simpl in Hr; apply andb_prop in Hr as [Hx _].
    destruct (isDigit_not_marker _ Hx) as (_ & _ & Ex & Eo & Eb).
    destruct c as [[] [] [] [] [] [] [] []]; try discriminate; try exact G;
      rewrite Ex, Eo, Eb; exact G.
Qed.

Lemma digitsOf_allDigits fuel : forall n acc,
  0 <= n -> allDigits acc = true -> allDigits (digitsOf fuel n acc) = true.
Proof.
  induction fuel as [|f IH]; intros n acc Hn Hacc; simpl.
  - rewrite Hacc, andb_true_r.
    apply digitChar_spec, Z.mod_pos_bound; lia.
  - assert (D : allDigits (String (digitChar (n mod 10)) acc) = true).
    { simpl; rewrite Hacc, andb_true_r.
      apply digitChar_spec, Z.mod_pos_bound; lia. }
    destruct (n <? 10); [exact D|].
    apply IH; [apply Z.div_pos; lia|exact D].
Qed.

Lemma digitsOf_nonempty fuel n acc : digitsOf fuel n acc <> "".
Proof.
  revert n acc; induction fuel as [|f IH]; intros n acc; simpl.
  - discriminate.
  - destruct (n <? 10); [discriminate|apply IH].
Qed.

(** Reading back the digits written in front of [acc], provided the fuel
    covers the digits of [n]. *)
Lemma parseDigits_digitsOf fuel : forall n acc,
  0 <= n < 10 ^ (Z.of_nat fuel + 1) ->
  parseDigits 10 0 (digitsOf fuel n acc) = parseDigits 10 n acc.
Proof.
  induction fuel as [|f IH]; intros n acc Hn.
  - change (10 ^ (Z.of_nat 0 + 1)) with 10 in Hn.
    simpl. rewrite Z.mod_small by lia.
    destruct (digitChar_spec n Hn) as [-> _]. reflexivity.
  - simpl digitsOf.
    destruct (Z.ltb_spec n 10) as [Hlt|Hge].
    + simpl. rewrite Z.mod_small by lia.
      destruct (digitChar_spec n) as [-> _]; [lia|]. reflexivity.
    + rewrite IH.
      * simpl.
        destruct (digitChar_spec (n mod 10)) as [-> _];
          [apply Z.mod_pos_bound; lia|].
        f_equal. pose proof (Z.div_mod n 10). lia.
      * split; [apply Z.div_pos; lia|].
        apply Z.div_lt_upper_bound; [lia|].
        replace (Z.of_nat (S f) + 1) with (Z.succ (Z.of_nat f + 1)) in Hn by lia.
        rewrite Z.pow_succ_r in Hn by lia. lia.
Qed.

Lemma log2_fuel n : 0 <= n -> n < 10 ^ (Z.of_nat (Z.to_nat (Z.log2 n)) + 1).
Proof.
  intros Hn.
  rewrite Z2Nat.id by apply Z.log2_nonneg.
  destruct (Z.eq_dec n 0) as [->|Hz]; [reflexivity|].
  assert (H2 : n < 2 ^ (Z.log2 n + 1)).
  { replace (Z.log2 n + 1) with (Z.succ (Z.log2 n)) by lia.
    apply Z.log2_spec; lia. }
  assert (H10 : 2 ^ (Z.log2 n + 1) <= 10 ^ (Z.log2 n + 1)).
  { apply Z.pow_le_mono_l. lia. }
  lia.
Qed.

(** [BigInt(z.toString())] is [z] again, for a natural number [z]. *)
Lemma StringToBigInt_toString n :
  0 <= n -> StringToBigInt (BigInt_toString n) = Some n.
Proof.
  intros Hn; unfold BigInt_toString.
  destruct (Z.ltb_spec n 0) as [?|_]; [lia|].
  rewrite Z.abs_eq by lia.
  rewrite StringToBigInt_allDigits.
  - rewrite parseDigits_digitsOf by (split; [lia|apply log2_fuel; lia]). reflexivity.
  - apply digitsOf_nonempty.
  - apply digitsOf_allDigits; [lia|reflexivity].
Qed.

(** The same for every integer: the printer and the reader agree. *)
Lemma StringToBigInt_toString_signed z :
  StringToBigInt (BigInt_toString z) = Some z.
Proof.
  destruct (Z.ltb_spec z 0) as [Hneg|Hpos]; [|now apply StringToBigInt_toString].
  unfold BigInt_toString.
  destruct (Z.ltb_spec z 0) as [_|?]; [|lia].
  set (ds := digitsOf (Z.to_nat (Z.log2 (Z.abs z))) (Z.abs z) "").
  assert (Hd : allDigits ds = true)
    by (apply digitsOf_allDigits; [lia|reflexivity]).
  assert (Hn : ds <> "") by apply digitsOf_nonempty.
  unfold StringToBigInt, trim.
  rewrite trimStart_no_space by reflexivity.
  rewrite trimEnd_cons_nonspace by reflexivity.
  rewrite (trimEnd_allDigits _ Hd).
  change (option_map Z.opp (parseInteger 10 ds) = Some z).
  assert (E : parseInteger 10 ds = Some (Z.abs z)).
  { destruct ds as [|c r] eqn:Eds; [congruence|].
    change (parseDigits 10 0 (String c r) = Some (Z.abs z)).
    rewrite <- Eds. unfold ds.
    rewrite parseDigits_digitsOf by (split; [lia|apply log2_fuel; lia]).
    reflexivity. }
  rewrite E. simpl. f_equal. lia.
Qed.

Lemma toString_nonempty n : BigInt_toString n <> "".
Proof.
  unfold BigInt_toString. destruct (n <? 0); [discriminate|apply digitsOf_nonempty].
Qed.

(** A natural number below [10^k] has at most [k] digits. *)
Lemma digitsOf_length fuel : forall n acc k,
  0 <= n < 10 ^ Z.of_nat (S k) ->
  (String.length (digitsOf fuel n acc) <= S k + String.length acc)%nat.
Proof.
  induction fuel as [|f IH]; intros n acc k Hn; simpl digitsOf.
  - simpl. lia.
  - destruct (Z.ltb_spec n 10) as [Hlt|Hge]; [simpl; lia|].
    destruct k as [|k]; [change (10 ^ Z.of_nat 1) with 10 in Hn; lia|].
    specialize (IH (n / 10) (String (digitChar (n mod 10)) acc) k).
    simpl String.length in IH.
    assert (0 <= n / 10 < 10 ^ Z.of_nat (S k)); [|lia].
    split; [apply Z.div_pos; lia|].
    apply Z.div_lt_upper_bound; [lia|].
    rewrite (Nat2Z.inj_succ (S k)), Z.pow_succ_r in Hn by lia. lia.
Qed.

Lemma toString_length_lt_million r :
  0 <= r < 1000000 -> (String.length (BigInt_toString r) <= 6)%nat.
Proof.
  intros Hr; unfold BigInt_toString.
  destruct (Z.ltb_spec r 0) as [?|_]; [lia|].
  rewrite Z.abs_eq by lia.
  pose proof (digitsOf_length (Z.to_nat (Z.log2 r)) r "" 5) as H.
  simpl String.length in H. apply H.
  change (10 ^ Z.of_nat 6) with 1000000. lia.
Qed.

(** [padStart] with a one-character filler. *)
Lemma filler_single n c :
  filler n (String c "") (String c "") = string_of_list_ascii (repeat c n).
Proof.
  assert (G : forall m rest, rest = "" \/ rest = String c "" ->
              filler m (String c "") rest = string_of_list_ascii (repeat c m)).
  { induction m as [|m IH]; intros rest Hr; [reflexivity|].
    destruct Hr as [-> | ->]; simpl; f_equal; apply IH; auto. }
  apply G; auto.
Qed.

Lemma length_string_of_list l :
  String.length (string_of_list_ascii l) = List.length l.
Proof. induction l; simpl; congruence. Qed.

Lemma length_append (a b : string) :
  String.length (a ++ b) = (String.length a + String.length b)%nat.
Proof. induction a; simpl; congruence. Qed.

Lemma append_assoc (a b c : string) : (a ++ b) ++ c = a ++ (b ++ c).
Proof. induction a; simpl; congruence. Qed.

Lemma padStart_pad6 s : padStart 6 "0" s = Spec.pad6 s.
Proof.
  unfold padStart, Spec.pad6.
  destruct (Nat.leb_spec 6 (String.length s)) as [H|H].
  - replace (6 - String.length s)%nat with 0%nat by lia. reflexivity.
  - simpl String.eqb. cbv iota. now rewrite filler_single.
Qed.

Lemma pad6_length s :
  (String.length s <= 6)%nat -> String.length (Spec.pad6 s) = 6%nat.
Proof.
  intros H; unfold Spec.pad6.
  rewrite length_append, length_string_of_list, repeat_length. lia.
Qed.

(** The built-ins on a few inputs. *)
Example trim_inner_kept : trim "  ab c  " = "ab c".
Proof. reflexivity. Qed.

Example padStart_sign : padStart 6 "0" "-1" = "0000-1".
Proof. reflexivity. Qed.

Example padStart_cycles : padStart 5 "ab" "x" = "ababx".
Proof. reflexivity. Qed.

Example padStart_long : padStart 6 "0" "1234567" = "1234567".
Proof. reflexivity. Qed.

Example StringToBigInt_literals :
  StringToBigInt "0x1F" = Some 31 /\ StringToBigInt "-5" = Some (-5)
  /\ StringToBigInt " 12 " = Some 12 /\ StringToBigInt "0012" = Some 12
  /\ StringToBigInt "  " = Some 0 /\ StringToBigInt "1e3" = None
  /\ StringToBigInt "-0x5" = None /\ StringToBigInt "1 2" = None
  /\ StringToBigInt "12n" = None /\ StringToBigInt "+" = None.
Proof. repeat split. Qed.

Example toString_samples :
  BigInt_toString 0 = "0" /\ BigInt_toString (-120) = "-120"
  /\ BigInt_toString 1023 = "1023" /\ BigInt_toString 1024 = "1024"
  /\ BigInt_toString 18446744073709551616 = "18446744073709551616".
Proof. repeat split. Qed.

Lemma trimStart_empty_iff s : trimStart s = "" <-> allWhiteSpace s = true.
Proof.
  induction s as [|c r IH]; simpl; [tauto|].
  destruct (isWhiteSpace c); simpl; [exact IH|].
  split; discriminate.
Qed.

Lemma trimEnd_empty_iff s : trimEnd s = "" <-> allWhiteSpace s = true.
Proof.
  induction s as [|c r IH]; simpl; [tauto|].
  destruct (trimEnd r) as [|d r'] eqn:E.
  - destruct (isWhiteSpace c); simpl; [tauto|].
    split; discriminate.
  - split; [discriminate|].
    intros H; apply andb_prop in H as [_ H]. apply IH in H. discriminate H.
Qed.

(** A string is empty after trimming exactly when it is blank. *)
Lemma trim_empty_iff s : trim s = "" <-> allWhiteSpace s = true.
Proof.
  unfold trim. split.
  - intros H. apply trimEnd_empty_iff in H.
    induction s as [|c r IH]; [reflexivity|].
    simpl in *. destruct (isWhiteSpace c) eqn:W; [now apply IH|].
    simpl in H. now rewrite W in H.
  - intros H. apply trimStart_empty_iff in H. now rewrite H.
Qed.

Lemma trimStart_head s :
  trimStart s = "" \/
  exists c r, trimStart s = String c r /\ isWhiteSpace c = false.
Proof.
  induction s as [|c r IH]; simpl; [now left|].
  destruct (isWhiteSpace c) eqn:E; [exact IH|].
  right; exists c, r; auto.
Qed.

Lemma trimEnd_idem s : trimEnd (trimEnd s) = trimEnd s.
Proof.
  induction s as [|c r IH]; [reflexivity|].
  simpl. destruct (trimEnd r) as [|d r'] eqn:E.
  - destruct (isWhiteSpace c) eqn:W; [reflexivity|].
    simpl. now rewrite W.
  - change (trimEnd (String c (String d r')))
      with (match trimEnd (String d r') with
            | EmptyString => if isWhiteSpace c then EmptyString else String c EmptyString
            | r'' => String c r''
            end).
    now rewrite IH.
Qed.

(** [trim] is idempotent. *)
Lemma trim_idem s : trim (trim s) = trim s.
Proof.
  unfold trim.
  destruct (trimStart_head s) as [-> | (c & r & -> & W)]; [reflexivity|].
  rewrite (trimEnd_cons_nonspace _ _ W).
  rewrite (trimStart_no_space _ _ W).
  rewrite <- (trimEnd_cons_nonspace _ _ W).
  apply trimEnd_idem.
Qed.

Lemma trim_hash_ok s : trim s <> "" -> Pred.hash_ok (trim s).
Proof. intros H; split; [apply trim_idem|exact H]. Qed.

End JsFacts.

(* ================================================================== *)
(** * Part VII. The balance formatter *)
(* ================================================================== *)

Module FormatterFacts.
Import Js App JsFacts.

(** The formatter on an amount already converted to a BigInt. *)
Lemma format_of_BigInt p z :
  BigInt (or_prim p (PString "0")) = Normal z ->
  formatLovelaceToAda p =
    Normal (BigInt_toString (Z.quot z 1000000) ++ "."
            ++ padStart 6 "0" (BigInt_toString (Z.rem z 1000000)) ++ " ADA").
Proof. intros H; unfold formatLovelaceToAda; now rewrite H. Qed.

Lemma format_of_Throw p e :
  BigInt (or_prim p (PString "0")) = Throw e -> formatLovelaceToAda p = Throw e.
Proof. intros H; unfold formatLovelaceToAda; now rewrite H. Qed.

Lemma format_nat p m :
  0 <= m -> BigInt (or_prim p (PString "0")) = Normal m ->
  formatLovelaceToAda p = Normal (Spec.formatted m ++ " ADA").
Proof.
  intros Hm H. rewrite (format_of_BigInt _ _ H).
  rewrite Z.quot_div_nonneg, Z.rem_mod_nonneg by lia.
  rewrite padStart_pad6. unfold Spec.formatted.
  rewrite append_assoc. reflexivity.
Qed.

Lemma BigInt_or_bigint m : BigInt (or_prim (PBigInt m) (PString "0")) = Normal m.
Proof.
  unfold or_prim; simpl. destruct (Z.eqb_spec m 0) as [->|_]; reflexivity.
Qed.

Lemma BigInt_or_string m :
  0 <= m -> BigInt (or_prim (PString (BigInt_toString m)) (PString "0")) = Normal m.
Proof.
  intros Hm. unfold or_prim; simpl.
  destruct (String.eqb_spec (BigInt_toString m) "") as [E|_];
    [now apply toString_nonempty in E|].
  simpl. now rewrite StringToBigInt_toString.
Qed.

Lemma BigInt_or_literal s m :
  StringToBigInt s = Some m -> BigInt (or_prim (PString s) (PString "0")) = Normal m.
Proof.
  intros H. unfold or_prim; simpl.
  destruct (String.eqb_spec s "") as [->|_]; simpl.
  - injection H as <-. reflexivity.
  - now rewrite H.
Qed.

Lemma falsy_is_zero p :
  truthy_prim p = false -> BigInt (or_prim p (PString "0")) = Normal 0.
Proof. intros H; unfold or_prim; now rewrite H. Qed.

(** A negative amount is formatted part by part. *)
Example format_negative :
  formatLovelaceToAda (PString "-1500000") = Normal "-1.-500000 ADA".
Proof. reflexivity. Qed.

Example format_large :
  formatLovelaceToAda (PString "123456789012345678901234567890")
  = Normal "123456789012345678901234.567890 ADA".
Proof. reflexivity. Qed.

End FormatterFacts.

Import Js App.

(** C1, as stated, fails: the formatter appends the unit, so [1000000] is
    rendered as ["1.000000 ADA"] and not as ["1.000000"], the value of
    [floor(m/1e6) + "." + pad6(m mod 1e6)]. *)
Lemma formatLovelaceToAda_not_bare_formula :
  Spec.formatted 1000000 = "1.000000" /\
  formatLovelaceToAda (PString "1000000") = Normal "1.000000 ADA" /\
  formatLovelaceToAda (PString "1000000") <> Normal (Spec.formatted 1000000) /\
  formatLovelaceToAda (PBigInt 1000000) <> Normal (Spec.formatted 1000000).
Proof. repeat split; discriminate. Qed.

(** C1 (amended): for every non-negative integer [m], given as a BigInt,
    as its decimal string or as any other string [BigInt] reads as [m],
    [formatLovelaceToAda] returns
    [floor(m/1000000) + "." + pad6(m mod 1000000)] followed by [" ADA"],
    and the fractional part has exactly six digits; [1000000], [1] and [0]
    give ["1.000000 ADA"], ["0.000001 ADA"] and ["0.000000 ADA"]. *)
Theorem formatLovelaceToAda_formula (m : Z) :
  0 <= m ->
  formatLovelaceToAda (PBigInt m) = Normal (Spec.formatted m ++ " ADA")
  /\ formatLovelaceToAda (PString (BigInt_toString m))
     = Normal (Spec.formatted m ++ " ADA")
  /\ (forall s, StringToBigInt s = Some m ->
        formatLovelaceToAda (PString s) = Normal (Spec.formatted m ++ " ADA"))
  /\ String.length (Spec.pad6 (BigInt_toString (m mod 1000000))) = 6%nat
  /\ formatLovelaceToAda (PString "1000000") = Normal "1.000000 ADA"
  /\ formatLovelaceToAda (PString "1") = Normal "0.000001 ADA"
  /\ formatLovelaceToAda (PString "0") = Normal "0.000000 ADA".
Proof.
  intros Hm. split; [|split; [|split; [|split]]].
  - apply FormatterFacts.format_nat; [exact Hm|].
    apply FormatterFacts.BigInt_or_bigint.
  - apply FormatterFacts.format_nat; [exact Hm|].
    now apply FormatterFacts.BigInt_or_string.
  - intros s Hs. apply FormatterFacts.format_nat; [exact Hm|].
    now apply FormatterFacts.BigInt_or_literal.
  - apply JsFacts.pad6_length, JsFacts.toString_length_lt_million.
    apply Z.mod_pos_bound; lia.
  - repeat split.
Qed.

Lemma formatLovelaceToAda_formula_witness :
  0 <= 1234567 /\
  formatLovelaceToAda (PBigInt 1234567) = Normal "1.234567 ADA".
Proof.
  split; [lia|].
  exact (proj1 (formatLovelaceToAda_formula 1234567 ltac:(lia))).
Defined.

(** C9, as stated, fails: a malformed string is not normalised to zero,
    [BigInt] raises a SyntaxError on it. *)
Lemma formatLovelaceToAda_malformed_raises :
  formatLovelaceToAda (PString "abc") = Throw SyntaxError /\
  formatLovelaceToAda (PString "abc") <> Normal "0.000000 ADA" /\
  formatLovelaceToAda (PString "12.5") = Throw SyntaxError.
Proof. repeat split; discriminate. Qed.

(** C9 (amended): the formatter is a function of its argument alone;
    [null], [undefined] and every other falsy input are normalised to zero
    and give ["0.000000 ADA"]; a string that is no integer literal raises a
    SyntaxError and a non-integral number a RangeError; every other input
    gives a result. *)
Theorem formatLovelaceToAda_cases (p : prim) :
  (truthy_prim p = false -> formatLovelaceToAda p = Normal "0.000000 ADA")
  /\ (forall s, p = PString s -> StringToBigInt s = None ->
        formatLovelaceToAda p = Throw SyntaxError)
  /\ (p = PNumber NumOther -> formatLovelaceToAda p = Throw RangeError)
  /\ ((forall s, p = PString s -> StringToBigInt s <> None) ->
      p <> PNumber NumOther ->
      exists str, formatLovelaceToAda p = Normal str).
Proof.
  split; [|split; [|split]].
  - intros H. now rewrite (FormatterFacts.format_of_BigInt p 0
                             (FormatterFacts.falsy_is_zero p H)).
  - intros s -> Hs. apply FormatterFacts.format_of_Throw.
    unfold or_prim. simpl.
    destruct (String.eqb_spec s "") as [->|_]; [discriminate Hs|].
    simpl. now rewrite Hs.
  - intros ->. reflexivity.
  - intros Hs Hn.
    destruct (truthy_prim p) eqn:T.
    + assert (exists z, BigInt (or_prim p (PString "0")) = Normal z) as [z Hz].
      { unfold or_prim; rewrite T.
        destruct p as [| |b|[z| |]|s|z]; simpl in *; try discriminate;
          try (eexists; reflexivity); try congruence.
        destruct (StringToBigInt s) eqn:E; [eexists; reflexivity|].
        now destruct (Hs s eq_refl). }
      rewrite (FormatterFacts.format_of_BigInt p z Hz). eexists; reflexivity.
    + rewrite (FormatterFacts.format_of_BigInt p 0
                 (FormatterFacts.falsy_is_zero p T)). eexists; reflexivity.
Qed.

Lemma formatLovelaceToAda_cases_witness :
  formatLovelaceToAda PNull = Normal "0.000000 ADA"
  /\ formatLovelaceToAda PUndefined = Normal "0.000000 ADA"
  /\ formatLovelaceToAda (PString "x1") = Throw SyntaxError
  /\ exists str, formatLovelaceToAda (PString " 42 ") = Normal str.
Proof.
  split; [|split; [|split]].
  - exact (proj1 (formatLovelaceToAda_cases PNull) eq_refl).
  - exact (proj1 (formatLovelaceToAda_cases PUndefined) eq_refl).
  - exact (proj1 (proj2 (formatLovelaceToAda_cases (PString "x1"))) "x1" eq_refl eq_refl).
  - apply (proj2 (proj2 (proj2 (formatLovelaceToAda_cases (PString " 42 "))))).
    + intros s E; injection E as <-; discriminate.
    + discriminate.
Defined.

(* ================================================================== *)
(** * Part VIII. The wallet card *)
(* ================================================================== *)

Module AppFacts.
Import Js App Pred.

(** Case analysis on how the awaited calls settle. *)
Ltac settle :=
  repeat match goal with
  | |- context [match ?x with Resolved _ => _ | Rejected _ => _ end] =>
      lazymatch x with
      | context [match _ with _ => _ end] => fail
      | _ => destruct x eqn:?
      end; cbn
  | |- context [find ?f ?l] => destruct (find f l) eqn:?; cbn
  end.

Ltac unfold_run :=
  unfold sendToSelf, getBalance, try_finally, try_catch, bind, emit, await, ret.

(** Case analysis on the guard of a handler of [env] started in [st]. *)
Ltac on_guard env st :=
  unfold_run;
  destruct (isTxRunning st) eqn:?;
  destruct (connected env) eqn:?;
  destruct (wallet env) as [?w|] eqn:?;
  cbn.

Lemma sendToSelf_running env st :
  isTxRunning st = true -> sendToSelf env st = ret tt st.
Proof. intros H; unfold sendToSelf; now rewrite H. Qed.

Lemma getBalance_skipped env st :
  connected env = false \/ wallet env = None -> getBalance env st = ret tt st.
Proof.
  intros H; unfold getBalance.
  destruct H as [-> | ->]; [reflexivity|now destruct (connected env)].
Qed.

Lemma find_lovelace_none (assets : list Asset) :
  (forall a, In a assets -> unit_ a <> "lovelace") ->
  find (fun asset => String.eqb (unit_ asset) "lovelace") assets = None.
Proof.
  intros H.
  destruct (find _ assets) as [a|] eqn:E; [|reflexivity].
  apply find_some in E as [Hin Heq].
  apply String.eqb_eq in Heq. now destruct (H a Hin).
Qed.

(** A handler that finds the guard open starts by taking it. *)
Lemma sendToSelf_starts env w st :
  isTxRunning st = false -> connected env = true -> wallet env = Some w ->
  exists rest, effects (sendToSelf env st) = (SetIsTxRunning true :: rest)%list.
Proof.
  intros Hr Hc Hw. unfold_run. rewrite Hr, Hc, Hw. cbn. settle;
    eexists; reflexivity.
Qed.

(** The [finally] block: however the run went, it ends with the flag
    down. *)
Lemma sendToSelf_releases env st :
  isTxRunning st = false -> isTxRunning (final (sendToSelf env st)) = false.
Proof.
  intros Hr. unfold_run. rewrite Hr.
  destruct (connected env); [|exact Hr].
  destruct (wallet env) as [w|]; [|exact Hr].
  cbn. settle; reflexivity.
Qed.

End AppFacts.

(** C10: whatever [wallet.getBalance()] settles to, [getBalance] resolves
    (no error escapes) and leaves the loading flag cleared; when the call
    rejects, or the assets have no entry of unit ["lovelace"], the balance
    is set to ["0"]; otherwise to the quantity of the first such entry. *)
Theorem getBalance_settles (env : Env) (st : CardState) :
  result (getBalance env st) = Resolved tt
  /\ forall w, connected env = true -> wallet env = Some w ->
     isLoadingBalance (final (getBalance env st)) = false
     /\ (forall e, wallet_getBalance w = Rejected e ->
           balanceLovelace (final (getBalance env st)) = "0")
     /\ (forall assets, wallet_getBalance w = Resolved assets ->
           (forall a, In a assets -> unit_ a <> "lovelace") ->
           balanceLovelace (final (getBalance env st)) = "0")
     /\ (forall assets a, wallet_getBalance w = Resolved assets ->
           find (fun asset => String.eqb (unit_ asset) "lovelace") assets = Some a ->
           balanceLovelace (final (getBalance env st)) = quantity a).
Proof.
  split.
  - AppFacts.unfold_run.
    destruct (connected env); [|reflexivity].
    destruct (wallet env) as [w|]; [|reflexivity].
    destruct (wallet_getBalance w); reflexivity.
  - intros w Hc Hw. AppFacts.unfold_run. rewrite Hc, Hw.
    destruct (wallet_getBalance w) as [assets|e] eqn:E; cbn.
    + repeat split; try discriminate.
      * intros l Hl Hno. injection Hl as <-.
        now rewrite (AppFacts.find_lovelace_none _ Hno).
      * intros l a Hl Hf. injection Hl as <-. now rewrite Hf.
    + repeat split; discriminate.
Qed.

Lemma getBalance_settles_witness :
  result (getBalance (Demo.demo_env (Demo.demo_wallet (Rejected Demo.boom)) (Resolved tt))
            initialCard) = Resolved tt
  /\ isLoadingBalance
       (final (getBalance (Demo.demo_env (Demo.demo_wallet (Rejected Demo.boom)) (Resolved tt))
                 initialCard)) = false
  /\ balanceLovelace
       (final (getBalance (Demo.demo_env (Demo.demo_wallet (Rejected Demo.boom)) (Resolved tt))
                 initialCard)) = "0".
Proof.
  pose proof (getBalance_settles
                (Demo.demo_env (Demo.demo_wallet (Rejected Demo.boom)) (Resolved tt))
                initialCard) as [H1 H2].
  specialize (H2 (Demo.demo_wallet (Rejected Demo.boom)) eq_refl eq_refl).
  split; [exact H1|].
  split; [exact (proj1 H2)|].
  exact (proj1 (proj2 H2) Demo.boom eq_refl).
Defined.

(** C3: a call of [sendToSelf] that finds [isTxRunning] set does nothing at
    all; a call that finds it clear ends with it clear again, on the error
    path as on the others; in every state the card goes through before the
    end of a run the flag is set, so a call made there does nothing; and
    after a run a new call by a connected wallet does start. *)
Theorem sendToSelf_single_flight (env : Env) (st : CardState) :
  (isTxRunning st = true -> sendToSelf env st = ret tt st)
  /\ (isTxRunning st = false -> isTxRunning (final (sendToSelf env st)) = false)
  /\ (forall mid,
        In mid (removelast (states st (effects (sendToSelf env st)))) ->
        isTxRunning mid = true /\ forall env', sendToSelf env' mid = ret tt mid)
  /\ (isTxRunning st = false ->
      forall env' w', connected env' = true -> wallet env' = Some w' ->
      exists rest,
        effects (sendToSelf env' (final (sendToSelf env st)))
        = (SetIsTxRunning true :: rest)%list).
Proof.
  split; [apply AppFacts.sendToSelf_running|].
  split; [apply AppFacts.sendToSelf_releases|].
  split.
  - AppFacts.on_guard env st; try contradiction.
    AppFacts.settle.
    all: intros mid Hin; cbn in Hin.
    all: repeat (destruct Hin as [<- | Hin];
                 [split; [reflexivity
                         |intros env'; now apply AppFacts.sendToSelf_running]|]).
    all: contradiction.
  - intros Hr env' w' Hc Hw.
    apply (AppFacts.sendToSelf_starts env' w'); [|exact Hc|exact Hw].
    now apply AppFacts.sendToSelf_releases.
Qed.

Lemma sendToSelf_single_flight_witness :
  let env := Demo.demo_env (Demo.demo_wallet (Rejected Demo.boom)) (Resolved tt) in
  let busy := apply (SetIsTxRunning true) initialCard in
  sendToSelf env busy = ret tt busy
  /\ isTxRunning (final (sendToSelf env initialCard)) = false.
Proof.
  intros env busy.
  split.
  - exact (proj1 (sendToSelf_single_flight env busy) eq_refl).
  - exact (proj1 (proj2 (sendToSelf_single_flight env initialCard)) eq_refl).
Defined.

(** C2: among the statuses a run of [sendToSelf] sets, those of the steps
    before submission succeeded carry no hash; a hash appears with the
    step [confirming] only, and from one status to the next it is never
    cleared; a status of step [error] carries no hash and is the last of
    the run, and once a hash is set the run ends in [success] with that
    hash (no failure comes after the submission). *)
Theorem sendToSelf_txHash_invariant (env : Env) (st : CardState) :
  let r := sendToSelf env st in
  let sts := statuses (effects r) in
  Forall (fun s => Pred.before_submission (step s) = true -> txHash s = None) sts
  /\ (forall s, In s sts -> txHash s <> None ->
        step s = confirming \/ step s = success)
  /\ Pred.never_cleared sts
  /\ (forall s, In s sts -> step s = error ->
        txHash s = None /\ txStatus (final r) = s)
  /\ (forall s h, In s sts -> txHash s = Some h ->
        txStatus (final r)
        = {| step := success; message := "Transaction successful!";
             txHash := Some h |}).
Proof.
  cbv zeta.
  AppFacts.on_guard env st;
    try (repeat split; try constructor; contradiction).
  AppFacts.settle.
  all: split; [repeat constructor; cbn; congruence|].
  all: split;
    [intros s Hin Hs; cbn in Hin;
     repeat (destruct Hin as [<- | Hin]; [cbn in *; auto; congruence|]);
     contradiction|].
  all: split; [cbn; repeat split; intros; congruence|].
  all: split;
    intros s; intros; cbn in *;
    repeat match goal with
           | H : _ \/ _ |- _ => destruct H as [<- | H]
           | H : False |- _ => contradiction
           end; cbn in *; try discriminate; try (split; reflexivity);
    try congruence.
Qed.

Lemma sendToSelf_txHash_invariant_witness :
  let env := Demo.demo_env (Demo.demo_wallet (Rejected Demo.boom)) (Resolved tt) in
  Pred.never_cleared (statuses (effects (sendToSelf env initialCard)))
  /\ txStatus (final (sendToSelf env initialCard))
     = {| step := success; message := "Transaction successful!";
          txHash := Some "f00d" |}.
Proof.
  intros env.
  pose proof (sendToSelf_txHash_invariant env initialCard) as H.
  cbv zeta in H.
  split; [exact (proj1 (proj2 (proj2 H)))|].
  refine (proj2 (proj2 (proj2 (proj2 H)))
            {| step := confirming;
               message := "Transaction submitted! Waiting briefly before updating balance...";
               txHash := Some "f00d" |} "f00d" _ eq_refl).
  cbn. right; right; right; left; reflexivity.
Defined.

(** C8: when the calls up to the submission succeed, the run ends in
    [success] with the submitted hash and resolves, whatever the
    notification [fetch] settles to; a rejection is written to the console
    and no status is set after [success]. *)
Theorem sendToSelf_notification_swallowed
  (env : Env) (st : CardState) (w : Wallet) (a u g h : string) :
  isTxRunning st = false -> connected env = true -> wallet env = Some w ->
  wallet_getChangeAddress w = Resolved a ->
  tx_build env a "1000000" = Resolved u ->
  wallet_signTx w u = Resolved g ->
  wallet_submitTx w g = Resolved h ->
  let r := sendToSelf env st in
  let done := {| step := success; message := "Transaction successful!";
                 txHash := Some h |} in
  result r = Resolved tt
  /\ txStatus (final r) = done
  /\ last (statuses (effects r)) initialTxStatus = done
  /\ isTxRunning (final r) = false
  /\ (forall e,
        fetch env "http://localhost:4000/api/transactions"
          {| n_txHash := h; n_walletAddress := a; n_network := "preprod" |}
        = Rejected e ->
        In (ConsoleError "Failed to notify backend about transaction:" e)
           (effects r)).
Proof.
  intros Hr Hc Hw Ha Hu Hg Hh. cbv zeta.
  AppFacts.unfold_run. rewrite Hr, Hc, Hw. cbn.
  rewrite Ha. cbn. rewrite Hu. cbn. rewrite Hg. cbn. rewrite Hh. cbn.
  destruct (wallet_getBalance w) eqn:Eb; cbn;
    destruct (fetch env _ _) as [[]|e'] eqn:Ef; cbn;
    repeat split; try discriminate;
    intros err He; injection He as <-; cbn; tauto.
Qed.

Lemma sendToSelf_notification_swallowed_witness :
  let env := Demo.demo_env (Demo.demo_wallet (Resolved nil)) (Rejected Demo.boom) in
  result (sendToSelf env initialCard) = Resolved tt
  /\ txStatus (final (sendToSelf env initialCard))
     = {| step := success; message := "Transaction successful!";
          txHash := Some "f00d" |}
  /\ In (ConsoleError "Failed to notify backend about transaction:" Demo.boom)
        (effects (sendToSelf env initialCard)).
Proof.
  intros env.
  pose proof (sendToSelf_notification_swallowed env initialCard
                (Demo.demo_wallet (Resolved nil))
                "addr_test1" "tx:addr_test1:1000000" "signed:tx:addr_test1:1000000"
                "f00d" eq_refl eq_refl eq_refl eq_refl eq_refl eq_refl eq_refl) as H.
  cbv zeta in H.
  split; [exact (proj1 H)|].
  split; [exact (proj1 (proj2 H))|].
  exact (proj2 (proj2 (proj2 (proj2 H))) Demo.boom eq_refl).
Defined.

(* ================================================================== *)
(** * Part IX. The collector *)
(* ================================================================== *)

Module ServerFacts.
Import Js Server Pred.

(** The validation test is the specification's rejection condition. *)
Lemma invalid_txHash_spec v :
  invalid_txHash v = true <-> Spec.rejected_txHash v.
Proof.
  destruct v as [p|]; [destruct p as [| |b|n|s|z]|];
    unfold invalid_txHash, Spec.rejected_txHash.
  1-4, 6-7: split; [trivial|intros _];
    match goal with
    | |- (negb ?t || _ || _)%bool = true => destruct t; reflexivity
    end.
  simpl.
  destruct (String.eqb_spec (trim s) "") as [E|E].
  - rewrite orb_true_r. tauto.
  - destruct (String.eqb_spec s "") as [->|_]; [now destruct E|].
    simpl. split; [discriminate|contradiction].
Qed.

Lemma valid_txHash_string s :
  trim s <> "" -> invalid_txHash (VPrim (PString s)) = false.
Proof.
  intros H. destruct (invalid_txHash (VPrim (PString s))) eqn:E; [|reflexivity].
  apply invalid_txHash_spec in E. now destruct H.
Qed.

Lemma valid_txHash_inv v :
  invalid_txHash v = false -> exists s, v = VPrim (PString s) /\ trim s <> "".
Proof.
  intros H.
  destruct v as [p|]; [destruct p as [| |b|n|s|z]|];
    try (match type of H with
         | invalid_txHash ?v = false =>
             assert (T : invalid_txHash v = true)
               by (apply invalid_txHash_spec; exact I)
         end;
         rewrite H in T; discriminate T).
  exists s; split; [reflexivity|].
  intros E. apply (proj2 (invalid_txHash_spec (VPrim (PString s)))) in E.
  congruence.
Qed.

(** *** Rejected requests *)

Lemma post_rejected srv c b :
  invalid_txHash (b_txHash (body_or_empty b)) = true ->
  post_transactions srv c b =
    {| response :=
         {| status := 400;
            body := MessageBody false
                      "txHash is required and must be a non-empty string." |};
       next := srv;
       accesses := [] |}.
Proof. intros H; unfold post_transactions; now rewrite H. Qed.

(** *** The stored hashes *)

Lemma get_keeps_state srv c : next (get_transactions srv c) = srv.
Proof.
  unfold get_transactions.
  destruct (mongoConnected srv); [destruct (mongo_fails c)|]; reflexivity.
Qed.

(** The document the schema makes: the hash and the creation time are
    the ones given, the two other fields are the casts. *)
Lemma created_fields c h wa nw d :
  created c h wa nw = Some d ->
  txHash d = h /\ createdAt d = now c
  /\ castString (cast_walletAddress c) wa = Some (walletAddress d)
  /\ castString (cast_network c) nw = Some (network d).
Proof.
  unfold created.
  destruct (castString (cast_walletAddress c) wa) as [w|]; [|discriminate].
  destruct (castString (cast_network c) nw) as [n|]; [|discriminate].
  intros H; injection H as <-. repeat split.
Qed.

(** A string goes through the cast unchanged. *)
Lemma created_strings c h a n :
  created c h (VPrim (PString a)) (VPrim (PString n))
  = Some {| txHash := h; walletAddress := VPrim (PString a);
            network := VPrim (PString n); createdAt := now c |}.
Proof. reflexivity. Qed.

Lemma truthy_nonempty s : s <> "" -> truthy (VPrim (PString s)) = true.
Proof.
  intros H. simpl. destruct (String.eqb_spec s ""); [contradiction|reflexivity].
Qed.

Lemma Number_toString_nonempty t n : Number_toString t n <> "".
Proof.
  unfold Number_toString. destruct n as [z| |]; try discriminate.
  destruct (Z.abs z <? 10 ^ 21); [apply JsFacts.toString_nonempty|discriminate].
Qed.

(** The cast of a truthy value is a non-empty string. *)
Lemma castString_truthy f v v' :
  castString f v = Some v' -> truthy v = true -> truthy v' = true.
Proof.
  destruct v as [p|]; [destruct p as [| |b|n|s|z]|];
    unfold castString; intros H T.
  - discriminate T.
  - discriminate T.
  - injection H as <-. now destruct b.
  - injection H as <-. apply truthy_nonempty, Number_toString_nonempty.
  - injection H as <-. exact T.
  - injection H as <-. apply truthy_nonempty, JsFacts.toString_nonempty.
  - destruct (object_text f) as [t|]; [|discriminate H].
    injection H as <-. reflexivity.
Qed.

(** The ways a create request ends. *)
Lemma post_outcomes srv c b :
  let tx_txHash := trimmed (b_txHash (body_or_empty b)) in
  let tx_walletAddress :=
    or_value (b_walletAddress (body_or_empty b)) (VPrim (PString "")) in
  let tx_network :=
    or_value (b_network (body_or_empty b)) (VPrim (PString "preprod")) in
  (invalid_txHash (b_txHash (body_or_empty b)) = true
   /\ post_transactions srv c b
      = {| response :=
             {| status := 400;
                body := MessageBody false
                          "txHash is required and must be a non-empty string." |};
           next := srv; accesses := [] |})
  \/ (invalid_txHash (b_txHash (body_or_empty b)) = false
      /\ mongoConnected srv = true
      /\ (mongo_fails c = true
          \/ created c tx_txHash tx_walletAddress tx_network = None)
      /\ post_transactions srv c b
         = {| response :=
                {| status := 500;
                   body := MessageBody false "Failed to save transaction." |};
              next := srv; accesses := [MongoCreate] |})
  \/ (invalid_txHash (b_txHash (body_or_empty b)) = false
      /\ mongoConnected srv = true /\ mongo_fails c = false
      /\ exists doc,
           created c tx_txHash tx_walletAddress tx_network = Some doc
           /\ post_transactions srv c b
              = {| response := {| status := 201; body := ItemBody true "mongo" doc |};
                   next := {| mongoConnected := true;
                              inMemoryTxHistory := inMemoryTxHistory srv;
                              transactions := (transactions srv ++ [doc])%list |};
                   accesses := [MongoCreate] |})
  \/ (invalid_txHash (b_txHash (body_or_empty b)) = false
      /\ mongoConnected srv = false
      /\ post_transactions srv c b
         = {| response :=
                {| status := 201;
                   body := ItemBody true "memory"
                             {| txHash := tx_txHash;
                                walletAddress := tx_walletAddress;
                                network := tx_network; createdAt := now c |} |};
              next := {| mongoConnected := false;
                         inMemoryTxHistory :=
                           (inMemoryTxHistory srv
                            ++ [{| txHash := tx_txHash;
                                   walletAddress := tx_walletAddress;
                                   network := tx_network;
                                   createdAt := now c |}])%list;
                         transactions := transactions srv |};
              accesses := [MemoryPush] |}).
Proof.
  cbv zeta. unfold post_transactions.
  destruct (invalid_txHash (b_txHash (body_or_empty b))) eqn:V; [now left|].
  right. destruct (mongoConnected srv) eqn:M; [|now right; right].
  destruct (created c _ _ _) as [doc|] eqn:D.
  - destruct (mongo_fails c) eqn:F.
    + left. repeat split. now left.
    + right; left. repeat split. exists doc. now split.
  - left. repeat split. now right.
Qed.

Lemma post_keeps_store_ok srv c b :
  store_ok srv -> store_ok (next (post_transactions srv c b)).
Proof.
  intros [Hm Hd].
  destruct (post_outcomes srv c b)
    as [(_ & ->)|[(_ & _ & _ & ->)|[(V & _ & _ & doc & D & ->)|(V & _ & ->)]]];
    simpl; try (now split);
    apply valid_txHash_inv in V as (s & E & Hs).
  - split; [exact Hm|].
    apply Forall_app; split; [exact Hd|].
    constructor; [|constructor].
    destruct (created_fields _ _ _ _ _ D) as (-> & _).
    rewrite E. now apply JsFacts.trim_hash_ok.
  - split; [|exact Hd].
    apply Forall_app; split; [exact Hm|].
    constructor; [|constructor]. simpl.
    rewrite E. now apply JsFacts.trim_hash_ok.
Qed.

Lemma handle_keeps_store_ok srv e : store_ok srv -> store_ok (handle srv e).
Proof.
  intros H. destruct e as [ok|c|c b]; simpl.
  - exact H.
  - now rewrite get_keeps_state.
  - now apply post_keeps_store_ok.
Qed.

Lemma run_keeps_store_ok es : forall srv, store_ok srv -> store_ok (run srv es).
Proof.
  induction es as [|e es IH]; intros srv H; [exact H|].
  apply IH, handle_keeps_store_ok, H.
Qed.

(** *** The queries *)

Lemma insert_desc_In d l x : In x (insert_desc d l) <-> x = d \/ In x l.
Proof.
  induction l as [|y l IH]; simpl.
  - intuition.
  - destruct (createdAt y <=? createdAt d); simpl; [intuition|].
    rewrite IH. intuition.
Qed.

Lemma sort_desc_In l x : In x (sort_desc l) <-> In x l.
Proof.
  induction l as [|y l IH]; simpl; [tauto|].
  rewrite insert_desc_In, IH. intuition.
Qed.

Lemma insert_desc_sorted d l :
  newest_first l -> newest_first (insert_desc d l).
Proof.
  unfold newest_first.
  induction l as [|y l IH]; intros H; simpl.
  - constructor; constructor.
  - apply StronglySorted_inv in H as [Hl Hy].
    destruct (Z.leb_spec (createdAt y) (createdAt d)) as [Hle|Hgt].
    + constructor; [constructor; assumption|].
      constructor; [exact Hle|].
      rewrite Forall_forall in *. intros z Hz. specialize (Hy z Hz). lia.
    + constructor; [now apply IH|].
      rewrite Forall_forall in *. intros z Hz.
      apply insert_desc_In in Hz as [->|Hz]; [lia|now apply Hy].
Qed.

Lemma sort_desc_sorted l : newest_first (sort_desc l).
Proof.
  induction l as [|y l IH]; simpl; [constructor|].
  now apply insert_desc_sorted.
Qed.

Lemma StronglySorted_firstn {A} (R : A -> A -> Prop) n : forall l,
  StronglySorted R l -> StronglySorted R (firstn n l).
Proof.
  induction n as [|n IH]; intros l H; [constructor|].
  destruct l as [|a l]; [constructor|].
  apply StronglySorted_inv in H as [Hl Ha]. simpl.
  constructor; [now apply IH|].
  rewrite Forall_forall in *. intros z Hz.
  apply Ha. rewrite <- (firstn_skipn n l). apply in_or_app. now left.
Qed.

Lemma StronglySorted_skipn {A} (R : A -> A -> Prop) n : forall l,
  StronglySorted R l -> StronglySorted R (skipn n l).
Proof.
  induction n as [|n IH]; intros l H; [exact H|].
  destruct l as [|a l]; [constructor|].
  apply StronglySorted_inv in H as [Hl _]. now apply IH.
Qed.

Lemma StronglySorted_snoc {A} (R : A -> A -> Prop) l x :
  StronglySorted R l -> Forall (fun a => R a x) l -> StronglySorted R (l ++ [x]).
Proof.
  induction l as [|a l IH]; intros H Hx; simpl.
  - constructor; constructor.
  - apply StronglySorted_inv in H as [Hl Ha].
    inversion Hx as [|? ? Rax Hx']; subst.
    constructor; [now apply IH|].
    apply Forall_app; split; [exact Ha|]. constructor; [exact Rax|constructor].
Qed.

Lemma StronglySorted_rev {A} (R : A -> A -> Prop) l :
  StronglySorted R l -> StronglySorted (fun a b => R b a) (rev l).
Proof.
  induction l as [|a l IH]; intros H; [constructor|].
  apply StronglySorted_inv in H as [Hl Ha]. simpl.
  apply StronglySorted_snoc; [now apply IH|].
  rewrite Forall_forall in *. intros z Hz. apply Ha. now apply in_rev.
Qed.

(** [a.slice(-20).reverse()] is the first twenty of [a] reversed. *)
Lemma latest_in_memory {A} (a : list A) :
  rev (slice_last 20 a) = firstn 20 (rev a).
Proof. unfold slice_last. now rewrite firstn_rev. Qed.

Lemma latest_in_memory_sorted a :
  oldest_first a -> newest_first (rev (slice_last 20 a)).
Proof.
  intros H. unfold slice_last, newest_first.
  apply (StronglySorted_rev (fun x y => createdAt x <= createdAt y)).
  now apply StronglySorted_skipn.
Qed.


(** The list served is at most twenty records of the store. *)
Lemma items_bound srv c :
  (List.length (items_of (response (get_transactions srv c))) <= 20)%nat.
Proof.
  unfold get_transactions.
  destruct (mongoConnected srv); [destruct (mongo_fails c)|]; simpl.
  - lia.
  - apply firstn_le_length.
  - rewrite latest_in_memory. apply firstn_le_length.
Qed.

Lemma items_stored srv c r :
  In r (items_of (response (get_transactions srv c))) ->
  In r (inMemoryTxHistory srv) \/ In r (transactions srv).
Proof.
  unfold get_transactions.
  destruct (mongoConnected srv); [destruct (mongo_fails c)|]; simpl.
  - contradiction.
  - intros H. right. unfold find_latest in H.
    apply sort_desc_In.
    rewrite <- (firstn_skipn 20 (sort_desc (transactions srv))).
    apply in_or_app; now left.
  - intros H. left. apply in_rev in H. unfold slice_last in H.
    rewrite <- (firstn_skipn (List.length (inMemoryTxHistory srv) - 20)
                  (inMemoryTxHistory srv)).
    apply in_or_app; now right.
Qed.

(** A clock that does not go back keeps the array in creation-time
    order. *)
Lemma push_keeps_oldest_first l r :
  oldest_first l -> Forall (fun x => createdAt x <= createdAt r) l ->
  oldest_first (l ++ [r]).
Proof. intros H Hr. now apply StronglySorted_snoc. Qed.

Lemma post_memory srv c b :
  inMemoryTxHistory (next (post_transactions srv c b)) = inMemoryTxHistory srv
  \/ exists r, createdAt r = now c /\
       inMemoryTxHistory (next (post_transactions srv c b))
       = (inMemoryTxHistory srv ++ [r])%list.
Proof.
  destruct (post_outcomes srv c b)
    as [(_ & ->)|[(_ & _ & _ & ->)|[(_ & _ & _ & doc & _ & ->)|(_ & _ & ->)]]];
    simpl; try (now left).
  right. eexists; split; [|reflexivity]. reflexivity.
Qed.

Lemma post_keeps_oldest_first srv c b :
  oldest_first (inMemoryTxHistory srv) ->
  Forall (fun x => createdAt x <= now c) (inMemoryTxHistory srv) ->
  oldest_first (inMemoryTxHistory (next (post_transactions srv c b))).
Proof.
  intros H Hc.
  destruct (post_memory srv c b) as [-> | (r & Hr & ->)]; [exact H|].
  apply push_keeps_oldest_first; [exact H|]. now rewrite Hr.
Qed.

(** Under a clock that does not go back, the array stays in
    creation-time order whatever happens to the process. *)
Lemma run_keeps_oldest_first es : forall srv t,
  oldest_first (inMemoryTxHistory srv) ->
  Forall (fun x => createdAt x <= t) (inMemoryTxHistory srv) ->
  clock_monotone t es ->
  oldest_first (inMemoryTxHistory (run srv es)).
Proof.
  induction es as [|e es IH]; intros srv t Hs Hb Hc; [exact Hs|].
  destruct e as [ok|c|c b]; simpl in Hc |- *.
  - now apply (IH _ t).
  - destruct Hc as [Ht Hc]. rewrite get_keeps_state.
    apply (IH _ (now c)); [exact Hs| |exact Hc].
    eapply Forall_impl; [|exact Hb]. simpl; intros; lia.
  - destruct Hc as [Ht Hc].
    assert (Hb' : Forall (fun x => createdAt x <= now c) (inMemoryTxHistory srv))
      by (eapply Forall_impl; [|exact Hb]; simpl; intros; lia).
    apply (IH _ (now c)); [| |exact Hc].
    + now apply post_keeps_oldest_first.
    + destruct (post_memory srv c b) as [-> | (r & Hr & ->)]; [exact Hb'|].
      apply Forall_app; split; [exact Hb'|].
      constructor; [lia|constructor].
Qed.

Lemma insert_desc_length d l :
  List.length (insert_desc d l) = S (List.length l).
Proof.
  induction l as [|x l IH]; simpl; [reflexivity|].
  destruct (createdAt x <=? createdAt d); simpl; congruence.
Qed.

Lemma sort_desc_length l : List.length (sort_desc l) = List.length l.
Proof.
  induction l as [|x l IH]; simpl; [reflexivity|].
  now rewrite insert_desc_length, IH.
Qed.

Lemma StronglySorted_app_inv {A} (R : A -> A -> Prop) l1 : forall l2,
  StronglySorted R (l1 ++ l2) ->
  forall x y, In x l1 -> In y l2 -> R x y.
Proof.
  induction l1 as [|a l1 IH]; intros l2 H x y Hx Hy; [contradiction|].
  simpl in H. apply StronglySorted_inv in H as [Hl Ha].
  destruct Hx as [<-|Hx].
  - rewrite Forall_forall in Ha. apply Ha, in_or_app. now right.
  - now apply (IH l2).
Qed.

(** The documents Mongo leaves out of the list are not newer than the
    ones it returns. *)
Lemma find_latest_most_recent docs d r :
  In d docs -> In r (find_latest docs) ->
  In d (find_latest docs) \/ createdAt d <= createdAt r.
Proof.
  intros Hd Hr. unfold find_latest in *.
  apply sort_desc_In in Hd.
  rewrite <- (firstn_skipn 20 (sort_desc docs)) in Hd.
  apply in_app_or in Hd as [Hd|Hd]; [now left|right].
  pose proof (sort_desc_sorted docs) as S. unfold newest_first in S.
  rewrite <- (firstn_skipn 20 (sort_desc docs)) in S.
  exact (StronglySorted_app_inv _ _ _ S r d Hr Hd).
Qed.

(** An accepted request served from memory. *)
Lemma post_accepted_memory srv c s wa nw :
  trim s <> "" -> mongoConnected srv = false ->
  post_transactions srv c
    (Some {| b_txHash := VPrim (PString s); b_walletAddress := wa;
             b_network := nw |})
  = {| response :=
         {| status := 201;
            body := ItemBody true "memory"
                      {| txHash := trim s;
                         walletAddress := or_value wa (VPrim (PString ""));
                         network := or_value nw (VPrim (PString "preprod"));
                         createdAt := now c |} |};
       next := {| mongoConnected := false;
                  inMemoryTxHistory :=
                    (inMemoryTxHistory srv
                     ++ [{| txHash := trim s;
                            walletAddress := or_value wa (VPrim (PString ""));
                            network := or_value nw (VPrim (PString "preprod"));
                            createdAt := now c |}])%list;
                  transactions := transactions srv |};
       accesses := [MemoryPush] |}.
Proof.
  intros Hs M. unfold post_transactions, body_or_empty.
  cbv beta iota zeta delta [b_txHash b_walletAddress b_network].
  rewrite (valid_txHash_string _ Hs), M. reflexivity.
Qed.

(** An accepted request served by Mongo, when the document is valid and
    the driver does not reject. *)
Lemma post_accepted_mongo srv c s wa nw doc :
  trim s <> "" -> mongoConnected srv = true -> mongo_fails c = false ->
  created c (trim s) (or_value wa (VPrim (PString "")))
    (or_value nw (VPrim (PString "preprod"))) = Some doc ->
  post_transactions srv c
    (Some {| b_txHash := VPrim (PString s); b_walletAddress := wa;
             b_network := nw |})
  = {| response := {| status := 201; body := ItemBody true "mongo" doc |};
       next := {| mongoConnected := true;
                  inMemoryTxHistory := inMemoryTxHistory srv;
                  transactions := (transactions srv ++ [doc])%list |};
       accesses := [MongoCreate] |}.
Proof.
  intros Hs M F D. unfold post_transactions, body_or_empty.
  cbv beta iota zeta delta [b_txHash b_walletAddress b_network].
  rewrite (valid_txHash_string _ Hs), M.
  change (trimmed (VPrim (PString s))) with (trim s).
  now rewrite D, F.
Qed.

End ServerFacts.

Import Server.

(** C4: a request whose [txHash] is missing, not a string, or empty after
    trimming is answered 400 with [ok: false], before any store is touched
    and leaving the process as it was; every later list is what it would
    have been without the request, and, the stores holding only hashes the
    create operation stored, no later list shows the rejected hash. *)
Theorem post_rejected_stores_nothing
  (srv : State) (c : Call) (b : option ReqBody) :
  Spec.rejected_txHash (b_txHash (body_or_empty b)) ->
  let h := post_transactions srv c b in
  response h
  = {| status := 400;
       body := MessageBody false
                 "txHash is required and must be a non-empty string." |}
  /\ ok_of (response h) = false
  /\ accesses h = []
  /\ next h = srv
  /\ (forall es c', get_transactions (run (next h) es) c'
                    = get_transactions (run srv es) c')
  /\ (Pred.store_ok srv ->
      forall es c' r,
        In r (items_of (response (get_transactions (run (next h) es) c'))) ->
        VPrim (PString (txHash r)) <> b_txHash (body_or_empty b)).
Proof.
  intros Hrej h.
  assert (E : h = {| response :=
                       {| status := 400;
                          body := MessageBody false
                                    "txHash is required and must be a non-empty string." |};
                     next := srv; accesses := [] |}).
  { apply ServerFacts.post_rejected. now apply ServerFacts.invalid_txHash_spec. }
  rewrite E; simpl.
  repeat split.
  intros Hok es c' r Hin Heq.
  assert (Hr : Pred.hash_ok (txHash r)).
  { pose proof (ServerFacts.run_keeps_store_ok es srv Hok) as [Hm Hd].
    rewrite Forall_forall in Hm, Hd.
    apply ServerFacts.items_stored in Hin as [Hin|Hin]; auto. }
  rewrite <- Heq in Hrej. simpl in Hrej.
  destruct Hr as [Ht Hne]. congruence.
Qed.

Lemma post_rejected_stores_nothing_witness :
  status (response (post_transactions (Demo.on_memory [Demo.tx "abc123" 10])
                      (Demo.at_ 11 false)
                      (Demo.post_of (VPrim (PString "  "))))) = 400
  /\ next (post_transactions (Demo.on_memory [Demo.tx "abc123" 10])
             (Demo.at_ 11 false) (Demo.post_of (VPrim (PString "  "))))
     = Demo.on_memory [Demo.tx "abc123" 10]
  /\ forall r,
       In r (items_of
               (response
                  (get_transactions
                     (run (next (post_transactions
                                   (Demo.on_memory [Demo.tx "abc123" 10])
                                   (Demo.at_ 11 false)
                                   (Demo.post_of (VPrim (PString "  ")))))
                        [])
                     (Demo.at_ 12 false)))) ->
       VPrim (PString (txHash r)) <> VPrim (PString "  ").
Proof.
  pose proof (post_rejected_stores_nothing
                (Demo.on_memory [Demo.tx "abc123" 10]) (Demo.at_ 11 false)
                (Demo.post_of (VPrim (PString "  "))) eq_refl) as H.
  cbv zeta in H.
  destruct H as (H1 & _ & _ & H4 & _ & H6).
  split; [now rewrite H1|].
  split; [exact H4|].
  apply (H6 ltac:(repeat constructor; discriminate) [] (Demo.at_ 12 false)).
Defined.




(** C6, as stated, fails: the in-memory list is served in the reverse
    order of the pushes, whatever the creation times say; after a record
    created at 9 and one created at 5 (the clock went back), the list
    gives the one created at 5 first. *)
Lemma list_in_memory_follows_pushes :
  map createdAt
    (items_of
       (response
          (get_transactions
             (run (initial [])
                [Post (Demo.at_ 9 false) (Demo.post_of (VPrim (PString "abc123")));
                 Post (Demo.at_ 5 false) (Demo.post_of (VPrim (PString "def456")))])
             (Demo.at_ 10 false)))) = [5; 9]
  /\ ~ Pred.newest_first
         (items_of
            (response
               (get_transactions
                  (run (initial [])
                     [Post (Demo.at_ 9 false)
                        (Demo.post_of (VPrim (PString "abc123")));
                      Post (Demo.at_ 5 false)
                        (Demo.post_of (VPrim (PString "def456")))])
                  (Demo.at_ 10 false)))).
Proof.
  split; [reflexivity|].
  intros H. apply StronglySorted_inv in H as [_ H].
  apply Forall_inv in H. simpl in H. lia.
Qed.

(** C6 (amended): whichever store serves and whatever it holds, the list
    has at most 20 records: Mongo gives the most recent documents in
    descending creation time; memory gives the last records pushed, the
    latest push first, which is descending creation time when the array is
    in creation-time order, as it is in every state the process reaches
    under a clock that does not go back; without a fault the answer is 200
    with [ok: true]. *)
Theorem get_transactions_latest (srv : State) (c : Call) :
  let res := response (get_transactions srv c) in
  (List.length (items_of res) <= 20)%nat
  /\ (mongoConnected srv = true -> Pred.newest_first (items_of res))
  /\ (mongoConnected srv = false ->
      items_of res = firstn 20 (rev (inMemoryTxHistory srv))
      /\ (Pred.oldest_first (inMemoryTxHistory srv) ->
          Pred.newest_first (items_of res)))
  /\ (mongoConnected srv = false \/ mongo_fails c = false ->
      res = {| status := 200;
               body := ListBody true
                         (if mongoConnected srv then "mongo" else "memory")
                         (items_of res) |})
  /\ (forall db es t,
        srv = run (initial db) es -> Pred.clock_monotone t es ->
        Pred.newest_first (items_of res))
  /\ (mongoConnected srv = true -> mongo_fails c = false ->
      List.length (items_of res) = Nat.min 20 (List.length (transactions srv))
      /\ (forall r, In r (items_of res) -> In r (transactions srv))
      /\ (forall d r, In d (transactions srv) -> In r (items_of res) ->
            In d (items_of res) \/ createdAt d <= createdAt r))
  /\ (mongoConnected srv = false ->
      List.length (items_of res)
      = Nat.min 20 (List.length (inMemoryTxHistory srv))).
Proof.
  cbv zeta. split; [apply ServerFacts.items_bound|].
  assert (G : (mongoConnected srv = true ->
               Pred.newest_first (items_of (response (get_transactions srv c))))
              /\ (mongoConnected srv = false ->
                  items_of (response (get_transactions srv c))
                  = firstn 20 (rev (inMemoryTxHistory srv))
                  /\ (Pred.oldest_first (inMemoryTxHistory srv) ->
                      Pred.newest_first
                        (items_of (response (get_transactions srv c)))))).
  { unfold get_transactions.
    destruct (mongoConnected srv) eqn:M; [destruct (mongo_fails c) eqn:F|]; simpl.
    - split; [intros _; constructor|discriminate].
    - split; [intros _|discriminate].
      apply ServerFacts.StronglySorted_firstn, ServerFacts.sort_desc_sorted.
    - split; [discriminate|intros _].
      split; [apply ServerFacts.latest_in_memory
             |apply ServerFacts.latest_in_memory_sorted]. }
  destruct G as [Gm Gl].
  split; [exact Gm|]. split; [exact Gl|]. split; [|split; [|split]].
  - unfold get_transactions.
    destruct (mongoConnected srv); [destruct (mongo_fails c)|]; simpl;
      try reflexivity.
    intros [H|H]; discriminate H.
  - intros db es t -> Hc.
    destruct (mongoConnected (run (initial db) es)) eqn:M; [now apply Gm|].
    apply (Gl eq_refl).
    apply (ServerFacts.run_keeps_oldest_first es (initial db) t);
      [constructor|constructor|exact Hc].
  - intros M F.
    assert (E : items_of (response (get_transactions srv c))
                = find_latest (transactions srv))
      by (unfold get_transactions; rewrite M, F; reflexivity).
    rewrite E. split; [|split].
    + unfold find_latest.
      now rewrite length_firstn, ServerFacts.sort_desc_length.
    + intros r Hr. unfold find_latest in Hr.
      apply ServerFacts.sort_desc_In.
      rewrite <- (firstn_skipn 20 (sort_desc (transactions srv))).
      apply in_or_app; now left.
    + intros d r. apply ServerFacts.find_latest_most_recent.
  - intros M. rewrite (proj1 (Gl M)).
    now rewrite length_firstn, length_rev.
Qed.

Lemma get_transactions_latest_witness :
  let srv := Demo.on_memory [Demo.tx "a" 1; Demo.tx "b" 2; Demo.tx "c" 3] in
  items_of (response (get_transactions srv (Demo.at_ 4 false)))
  = [Demo.tx "c" 3; Demo.tx "b" 2; Demo.tx "a" 1]
  /\ Pred.newest_first (items_of (response (get_transactions srv (Demo.at_ 4 false)))).
Proof.
  intros srv.
  pose proof (get_transactions_latest srv (Demo.at_ 4 false)) as H.
  cbv zeta in H. destruct H as (_ & _ & H & _).
  destruct (H eq_refl) as [H1 H2].
  split; [exact H1|].
  apply H2. repeat constructor; simpl; lia.
Defined.

(** C7, as stated, fails: once connected, a fault of the store at call
    time is answered 500 and nothing is served from the in-memory array,
    for this request and for the next ones, whatever the array holds. *)
Lemma store_fault_not_served_from_memory :
  let srv := Demo.on_mongo [Demo.tx "abc123" 1] [] in
  let h := get_transactions srv (Demo.at_ 2 true) in
  status (response h) = 500
  /\ items_of (response h) = []
  /\ inMemoryTxHistory srv = [Demo.tx "abc123" 1]
  /\ status (response (get_transactions (next h) (Demo.at_ 3 true))) = 500
  /\ status (response (post_transactions (next h) (Demo.at_ 3 true)
                         (Demo.post_of (VPrim (PString "abc123"))))) = 500.
Proof. repeat split. Qed.

(** C7 (amended): a fault of the store while listing or creating is
    answered 500 with [ok: false], where a validation error is answered
    400; the process is left as it was, and the same request without the
    fault is served (a create through Mongo only if the schema can cast its
    [walletAddress] and [network]: if not it is answered 500 as well); a
    store that is not configured, whose connection failed at start-up or
    has not come up yet leaves [mongoConnected] false, and then every
    request is served from memory, never with a 500. *)
Theorem store_fault_is_server_error (srv : State) (c : Call) :
  (mongoConnected srv = true -> mongo_fails c = true ->
     get_transactions srv c
     = {| response :=
            {| status := 500;
               body := MessageBody false "Failed to fetch transaction history." |};
          next := srv; accesses := [MongoFind] |}
     /\ forall b, invalid_txHash (b_txHash (body_or_empty b)) = false ->
        post_transactions srv c b
        = {| response :=
               {| status := 500;
                  body := MessageBody false "Failed to save transaction." |};
             next := srv; accesses := [MongoCreate] |})
  /\ (forall b, invalid_txHash (b_txHash (body_or_empty b)) = true ->
        status (response (post_transactions srv c b)) = 400)
  /\ (mongoConnected srv = true -> mongo_fails c = false ->
        status (response (get_transactions srv c)) = 200
        /\ forall b, invalid_txHash (b_txHash (body_or_empty b)) = false ->
           created c (trimmed (b_txHash (body_or_empty b)))
             (or_value (b_walletAddress (body_or_empty b)) (VPrim (PString "")))
             (or_value (b_network (body_or_empty b)) (VPrim (PString "preprod")))
           <> None ->
           status (response (post_transactions srv c b)) = 201)
  /\ (mongoConnected srv = false ->
        (exists items,
           response (get_transactions srv c)
           = {| status := 200; body := ListBody true "memory" items |})
        /\ forall b, invalid_txHash (b_txHash (body_or_empty b)) = false ->
           exists item,
             response (post_transactions srv c b)
             = {| status := 201; body := ItemBody true "memory" item |})
  /\ (forall uri db,
        mongoConnected (startup uri connect_rejected db) = false
        /\ mongoConnected (startup uri connect_pending db) = false)
  /\ (forall k db, mongoConnected (startup "" k db) = false)
  /\ (mongoConnected srv = true ->
      forall b, invalid_txHash (b_txHash (body_or_empty b)) = false ->
        created c (trimmed (b_txHash (body_or_empty b)))
          (or_value (b_walletAddress (body_or_empty b)) (VPrim (PString "")))
          (or_value (b_network (body_or_empty b)) (VPrim (PString "preprod")))
        = None ->
        post_transactions srv c b
        = {| response :=
               {| status := 500;
                  body := MessageBody false "Failed to save transaction." |};
             next := srv; accesses := [MongoCreate] |}).
Proof.
  split; [|split; [|split; [|split; [|split; [|split]]]]].
  - intros M F. unfold get_transactions, post_transactions. rewrite M, F.
    split; [reflexivity|]. intros b ->.
    destruct (created c _ _ _); reflexivity.
  - intros b H. now rewrite ServerFacts.post_rejected.
  - intros M F. unfold get_transactions, post_transactions. rewrite M, F.
    split; [reflexivity|]. intros b -> D.
    destruct (created c _ _ _); [reflexivity|now destruct D].
  - intros M. unfold get_transactions, post_transactions. rewrite M.
    split; [eexists; reflexivity|]. intros b ->. eexists; reflexivity.
  - intros uri db. unfold startup.
    destruct (truthy_prim (PString uri)); split; reflexivity.
  - intros k db. reflexivity.
  - intros M b V D. unfold post_transactions. now rewrite V, M, D.
Qed.

Lemma store_fault_is_server_error_witness :
  status (response (get_transactions (Demo.on_mongo [] [Demo.tx "abc123" 1])
                      (Demo.at_ 2 true))) = 500
  /\ status (response (post_transactions (Demo.on_mongo [] []) (Demo.at_ 2 true)
                         (Demo.post_of (VPrim (PString "abc123"))))) = 500
  /\ status (response (get_transactions
                         (startup "mongodb://127.0.0.1:27017/cardano_dapp"
                            connect_rejected [])
                         (Demo.at_ 2 true))) = 200
  /\ status (response (post_transactions (Demo.on_mongo [] []) (Demo.at_ 2 false)
                         (Demo.post_of (VPrim (PString "abc123"))))) = 201.
Proof.
  split; [|split; [|split]].
  - pose proof (proj1 (proj1 (store_fault_is_server_error
                                (Demo.on_mongo [] [Demo.tx "abc123" 1])
                                (Demo.at_ 2 true)) eq_refl eq_refl)) as H.
    now rewrite H.
  - pose proof (proj2 (proj1 (store_fault_is_server_error
                                (Demo.on_mongo [] []) (Demo.at_ 2 true))
                         eq_refl eq_refl)
                  (Demo.post_of (VPrim (PString "abc123"))) eq_refl) as H.
    now rewrite H.
  - destruct (proj1 (proj1 (proj2 (proj2 (proj2
               (store_fault_is_server_error
                  (startup "mongodb://127.0.0.1:27017/cardano_dapp"
                     connect_rejected [])
                  (Demo.at_ 2 true))))) eq_refl)) as [items H].
    now rewrite H.
  - exact (proj2 (proj1 (proj2 (proj2 (store_fault_is_server_error
                    (Demo.on_mongo [] []) (Demo.at_ 2 false)))) eq_refl eq_refl)
             (Demo.post_of (VPrim (PString "abc123"))) eq_refl
             ltac:(discriminate)).
Defined.

(* ================================================================== *)
(** * Part X. More about the collector *)
(* ================================================================== *)

Module CollectorFacts.
Import Js Server Pred.

Lemma truthy_or_value v d : truthy d = true -> truthy (or_value v d) = true.
Proof. intros H; unfold or_value. destruct (truthy v) eqn:E; assumption. Qed.

(** The four ways a create request ends. *)
Lemma post_cases srv c b :
  let h := post_transactions srv c b in
  (invalid_txHash (b_txHash (body_or_empty b)) = true
   /\ status (response h) = 400 /\ ok_of (response h) = false
   /\ next h = srv /\ accesses h = [])
  \/ (invalid_txHash (b_txHash (body_or_empty b)) = false
      /\ mongoConnected srv = true
      /\ (mongo_fails c = true
          \/ created c (trimmed (b_txHash (body_or_empty b)))
               (or_value (b_walletAddress (body_or_empty b)) (VPrim (PString "")))
               (or_value (b_network (body_or_empty b)) (VPrim (PString "preprod")))
             = None)
      /\ status (response h) = 500 /\ ok_of (response h) = false
      /\ next h = srv /\ accesses h = [MongoCreate])
  \/ (invalid_txHash (b_txHash (body_or_empty b)) = false
      /\ mongoConnected srv = true /\ mongo_fails c = false
      /\ status (response h) = 201 /\ ok_of (response h) = true
      /\ accesses h = [MongoCreate]
      /\ exists r, createdAt r = now c
           /\ txHash r = trimmed (b_txHash (body_or_empty b))
           /\ truthy (network r) = true
           /\ response h = {| status := 201; body := ItemBody true "mongo" r |}
           /\ next h = {| mongoConnected := true;
                          inMemoryTxHistory := inMemoryTxHistory srv;
                          transactions := (transactions srv ++ [r])%list |})
  \/ (invalid_txHash (b_txHash (body_or_empty b)) = false
      /\ mongoConnected srv = false
      /\ status (response h) = 201 /\ ok_of (response h) = true
      /\ accesses h = [MemoryPush]
      /\ exists r, createdAt r = now c
           /\ txHash r = trimmed (b_txHash (body_or_empty b))
           /\ truthy (network r) = true
           /\ response h = {| status := 201; body := ItemBody true "memory" r |}
           /\ next h = {| mongoConnected := false;
                          inMemoryTxHistory := (inMemoryTxHistory srv ++ [r])%list;
                          transactions := transactions srv |}).
Proof.
  cbv zeta.
  destruct (ServerFacts.post_outcomes srv c b)
    as [(V & ->)|[(V & M & F & ->)|[(V & M & F & doc & D & ->)|(V & M & ->)]]].
  - left. repeat split; assumption.
  - right; left. repeat split; assumption.
  - right; right; left.
    destruct (ServerFacts.created_fields _ _ _ _ _ D) as (Eh & Et & _ & En).
    repeat split; try assumption.
    exists doc. repeat split; try assumption.
    apply (ServerFacts.castString_truthy _ _ _ En).
    now apply truthy_or_value.
  - right; right; right. repeat split; try assumption.
    exists {| txHash := trimmed (b_txHash (body_or_empty b));
              walletAddress :=
                or_value (b_walletAddress (body_or_empty b)) (VPrim (PString ""));
              network :=
                or_value (b_network (body_or_empty b)) (VPrim (PString "preprod"));
              createdAt := now c |}.
    split; [reflexivity|]. split; [reflexivity|].
    split; [|split; reflexivity]. simpl. now apply truthy_or_value.
Qed.

Lemma requests_keep_flag es : forall srv,
  requests_only es = true -> mongoConnected (run srv es) = mongoConnected srv.
Proof.
  induction es as [|e es IH]; intros srv H; [reflexivity|].
  destruct e as [ok|c|c b]; simpl in H; [discriminate| |]; simpl.
  - rewrite IH by exact H. now rewrite ServerFacts.get_keeps_state.
  - rewrite IH by exact H.
    destruct (post_cases srv c b)
      as [(_ & _ & _ & -> & _)|[(_ & _ & _ & _ & _ & -> & _)
         |[(_ & M & _ & _ & _ & _ & r & _ & _ & _ & _ & ->)
          |(_ & M & _ & _ & _ & r & _ & _ & _ & _ & ->)]]];
      simpl; congruence.
Qed.

End CollectorFacts.

(** X1: whatever happens to the process, each store only grows at its
    end: what it held before is still there, in the same order, followed
    by the records created since (nothing is updated, deleted or
    reordered). *)
Theorem stores_append_only (srv : State) (es : list Event) :
  exists created_in_memory created_in_mongo,
    inMemoryTxHistory (run srv es)
    = (inMemoryTxHistory srv ++ created_in_memory)%list
    /\ transactions (run srv es)
       = (transactions srv ++ created_in_mongo)%list.
Proof.
  revert srv. induction es as [|e es IH]; intros srv.
  - exists [], []. now rewrite !app_nil_r.
  - simpl. destruct (IH (handle srv e)) as (m & d & Hm & Hd).
    rewrite Hm, Hd. clear Hm Hd IH.
    destruct e as [ok|c|c b]; simpl.
    + exists m, d. split; reflexivity.
    + rewrite ServerFacts.get_keeps_state. exists m, d. split; reflexivity.
    + destruct (CollectorFacts.post_cases srv c b)
        as [(_ & _ & _ & -> & _)|[(_ & _ & _ & _ & _ & -> & _)
           |[(_ & _ & _ & _ & _ & _ & r & _ & _ & _ & _ & ->)
            |(_ & _ & _ & _ & _ & r & _ & _ & _ & _ & ->)]]]; simpl.
      * exists m, d. split; reflexivity.
      * exists m, d. split; reflexivity.
      * exists m, (r :: d)%list. now rewrite <- app_assoc.
      * exists (r :: m)%list, d. now rewrite <- app_assoc.
Qed.

(** X2: a create request is answered 201, 400 or 500; answered 201 it
    has added exactly one record, to the store the flag names and to no
    other; answered otherwise it has left the process as it was; it never
    changes the flag. *)
Theorem post_stores_one_or_nothing (srv : State) (c : Call) (b : option ReqBody) :
  let h := post_transactions srv c b in
  (status (response h) = 201 \/ status (response h) = 400
   \/ status (response h) = 500)
  /\ mongoConnected (next h) = mongoConnected srv
  /\ (status (response h) = 201 ->
      ok_of (response h) = true
      /\ exists r,
           if mongoConnected srv
           then transactions (next h) = (transactions srv ++ [r])%list
                /\ inMemoryTxHistory (next h) = inMemoryTxHistory srv
           else inMemoryTxHistory (next h) = (inMemoryTxHistory srv ++ [r])%list
                /\ transactions (next h) = transactions srv)
  /\ (status (response h) <> 201 ->
      ok_of (response h) = false /\ next h = srv).
Proof.
  cbv zeta.
  destruct (CollectorFacts.post_cases srv c b)
    as [(_ & S & O & N & _)|[(_ & M & _ & S & O & N & _)
       |[(_ & M & _ & S & O & _ & r & _ & _ & _ & _ & N)
        |(_ & M & S & O & _ & r & _ & _ & _ & _ & N)]]];
    rewrite S, N, ?M; simpl; rewrite ?M.
  - split; [auto|]. split; [reflexivity|]. split; [discriminate|]. now split.
  - split; [auto|]. split; [reflexivity|]. split; [discriminate|].
    split; [exact O|]. destruct srv; simpl in *; now subst.
  - split; [auto|]. split; [reflexivity|].
    split; [|intros H; now destruct H].
    intros _. split; [exact O|]. exists r. now split.
  - split; [auto|]. split; [reflexivity|].
    split; [|intros H; now destruct H].
    intros _. split; [exact O|]. exists r. now split.
Qed.

Lemma post_stores_one_or_nothing_witness :
  inMemoryTxHistory
    (next (post_transactions (Demo.on_memory [Demo.tx "old" 9]) (Demo.at_ 10 false)
             (Demo.post_of (VPrim (PString "abc123")))))
  = [Demo.tx "old" 9; Demo.tx "abc123" 10]
  /\ next (post_transactions (Demo.on_mongo [] []) (Demo.at_ 10 true)
             (Demo.post_of (VPrim (PString "abc123"))))
     = Demo.on_mongo [] [].
Proof.
  split.
  - destruct (proj1 (proj2 (proj2 (post_stores_one_or_nothing
                 (Demo.on_memory [Demo.tx "old" 9]) (Demo.at_ 10 false)
                 (Demo.post_of (VPrim (PString "abc123")))))) eq_refl)
      as (_ & r & H & _).
    reflexivity.
  - apply (proj2 (proj2 (proj2 (post_stores_one_or_nothing
                 (Demo.on_mongo [] []) (Demo.at_ 10 true)
                 (Demo.post_of (VPrim (PString "abc123"))))))).
    discriminate.
Defined.

(** X3: the validation rejects every hash that is not a string, and a
    string exactly when all its code units are white space (the empty
    string among them): one character that is not white space is enough
    for a hash to be accepted. *)
Theorem invalid_txHash_blank (v : value) :
  invalid_txHash v
  = match v with
    | VPrim (PString s) => Pred.allWhiteSpace s
    | _ => true
    end.
Proof.
  destruct (invalid_txHash v) eqn:E.
  - apply ServerFacts.invalid_txHash_spec in E.
    destruct v as [p|]; [destruct p as [| |b|n|s|z]|]; try reflexivity.
    simpl in E. symmetry. now apply JsFacts.trim_empty_iff.
  - apply ServerFacts.valid_txHash_inv in E as (s & -> & Hs).
    destruct (Pred.allWhiteSpace s) eqn:W; [|reflexivity].
    apply JsFacts.trim_empty_iff in W. now destruct Hs.
Qed.

(** X4: while [mongoConnected] is false and the connection promise does
    not settle, no sequence of requests changes that: the flag stays
    false, the Mongo collection is as it was, and every list or create
    request touches the in-memory array only and is never answered
    500. *)
Theorem memory_mode_is_stable (srv : State) (es : list Event) (c : Call) :
  mongoConnected srv = false ->
  Pred.requests_only es = true ->
  mongoConnected (run srv es) = false
  /\ transactions (run srv es) = transactions srv
  /\ Pred.memory_only (accesses (get_transactions (run srv es) c))
  /\ status (response (get_transactions (run srv es) c)) = 200
  /\ forall b,
       Pred.memory_only (accesses (post_transactions (run srv es) c b))
       /\ status (response (post_transactions (run srv es) c b)) <> 500.
Proof.
  intros M R.
  assert (F : mongoConnected (run srv es) = false)
    by (rewrite CollectorFacts.requests_keep_flag; assumption).
  split; [exact F|]. split.
  - clear F c. revert srv M R.
    induction es as [|e es IH]; intros srv M R; [reflexivity|].
    destruct e as [ok|c|c b]; simpl in R; [discriminate| |]; simpl.
    + rewrite ServerFacts.get_keeps_state. now apply IH.
    + destruct (CollectorFacts.post_cases srv c b)
        as [(_ & _ & _ & N & _)|[(_ & M' & _)
           |[(_ & M' & _)|(_ & _ & _ & _ & _ & r & _ & _ & _ & _ & N)]]];
        try congruence; rewrite N.
      * now apply IH.
      * rewrite IH by (reflexivity || assumption). reflexivity.
  - unfold get_transactions, post_transactions. rewrite F.
    split; [constructor; [auto|constructor]|]. split; [reflexivity|].
    intros b. destruct (invalid_txHash _); simpl.
    + split; [constructor|discriminate].
    + split; [constructor; [auto|constructor]|discriminate].
Qed.

Lemma memory_mode_is_stable_witness :
  mongoConnected
    (run (startup "" connect_pending [Demo.tx "kept" 1])
       [Post (Demo.at_ 5 true) (Demo.post_of (VPrim (PString "abc123")));
        Get (Demo.at_ 6 true)]) = false
  /\ transactions
       (run (startup "" connect_pending [Demo.tx "kept" 1])
          [Post (Demo.at_ 5 true) (Demo.post_of (VPrim (PString "abc123")));
           Get (Demo.at_ 6 true)]) = [Demo.tx "kept" 1].
Proof.
  pose proof (memory_mode_is_stable
                (startup "" connect_pending [Demo.tx "kept" 1])
                [Post (Demo.at_ 5 true) (Demo.post_of (VPrim (PString "abc123")));
                 Get (Demo.at_ 6 true)]
                (Demo.at_ 7 true) eq_refl eq_refl) as (H1 & H2 & _).
  split; [exact H1|exact H2].
Defined.

Module CollectorRuns.
Import Js Server Pred.

Lemma post_keeps_records_ok srv c b :
  records_ok srv -> records_ok (next (post_transactions srv c b)).
Proof.
  intros [Hm Hd].
  assert (G : forall r, invalid_txHash (b_txHash (body_or_empty b)) = false ->
              txHash r = trimmed (b_txHash (body_or_empty b)) ->
              truthy (network r) = true ->
              record_ok r).
  { intros r V Hh Hn. apply ServerFacts.valid_txHash_inv in V as (s & E & Hs).
    rewrite E in Hh. simpl in Hh. split.
    - rewrite Hh. now apply JsFacts.trim_hash_ok.
    - exact Hn. }
  destruct (CollectorFacts.post_cases srv c b)
    as [(_ & _ & _ & -> & _)|[(_ & _ & _ & _ & _ & -> & _)
       |[(V & _ & _ & _ & _ & _ & r & _ & Hh & Hn & _ & ->)
        |(V & _ & _ & _ & _ & r & _ & Hh & Hn & _ & ->)]]];
    try (split; assumption); split; simpl; try assumption;
    apply Forall_app; (split; [assumption|]);
    (constructor; [now apply G|constructor]).
Qed.

Lemma run_keeps_records_ok es : forall srv,
  records_ok srv -> records_ok (run srv es).
Proof.
  induction es as [|e es IH]; intros srv H; [exact H|].
  apply IH. destruct e as [ok|c|c b]; simpl.
  - exact H.
  - now rewrite ServerFacts.get_keeps_state.
  - now apply post_keeps_records_ok.
Qed.

Lemma listed_record_ok srv c r :
  records_ok srv ->
  In r (items_of (response (get_transactions srv c))) -> record_ok r.
Proof.
  intros [Hm Hd] Hin. rewrite Forall_forall in Hm, Hd.
  apply ServerFacts.items_stored in Hin as [Hin|Hin]; auto.
Qed.

Lemma hash_ok_accepted h :
  hash_ok h ->
  invalid_txHash (VPrim (PString h)) = false /\ trimmed (VPrim (PString h)) = h.
Proof.
  intros [Ht Hne]. split; [|exact Ht].
  apply ServerFacts.valid_txHash_string. now rewrite Ht.
Qed.

Lemma creates_in_memory l : forall srv,
  mongoConnected srv = false ->
  Forall (fun a => trim (with_hash a) <> "") l ->
  run srv (map create_event l)
  = {| mongoConnected := false;
       inMemoryTxHistory := (inMemoryTxHistory srv ++ map create_record l)%list;
       transactions := transactions srv |}.
Proof.
  induction l as [|a l IH]; intros srv M H.
  - simpl. rewrite app_nil_r. destruct srv; simpl in *; now subst.
  - inversion H as [|? ? Ha Hl]; subst. simpl.
    unfold create_event at 1. simpl.
    rewrite (ServerFacts.post_accepted_memory srv (at_call a) (with_hash a)
               (with_wallet a) (with_network a) Ha M).
    simpl. rewrite IH by (try reflexivity; assumption).
    simpl. now rewrite <- app_assoc.
Qed.

End CollectorRuns.

(** X5: the health route answers 200 with [ok: true], the fixed message
    and the flag [mongoConnected], whatever the stores do, and touches
    none of them; the flag it reports is the store the list and create
    routes go to at that moment: Mongo when it is true, the in-memory
    array when it is false. *)
Theorem health_names_the_store (srv : State) (c : Call) :
  response (get_health srv)
  = {| status := 200;
       body := HealthBody true "Cardano dApp backend is running."
                 (mongoConnected srv) |}
  /\ accesses (get_health srv) = []
  /\ next (get_health srv) = srv
  /\ accesses (get_transactions srv c)
     = [if mongoConnected srv then MongoFind else MemoryRead]
  /\ (forall b, invalid_txHash (b_txHash (body_or_empty b)) = false ->
        accesses (post_transactions srv c b)
        = [if mongoConnected srv then MongoCreate else MemoryPush])
  /\ (mongoConnected srv = false \/ mongo_fails c = false ->
      exists items,
        body (response (get_transactions srv c))
        = ListBody true (if mongoConnected srv then "mongo" else "memory") items).
Proof.
  split; [reflexivity|]. split; [reflexivity|]. split; [reflexivity|].
  split; [|split].
  - unfold get_transactions.
    destruct (mongoConnected srv); [destruct (mongo_fails c)|]; reflexivity.
  - intros b V.
    destruct (ServerFacts.post_outcomes srv c b)
      as [(V' & _)|[(_ & M & _ & ->)|[(_ & M & _ & doc & _ & ->)|(_ & M & ->)]]];
      [congruence| | |]; rewrite M; reflexivity.
  - intros H. unfold get_transactions.
    destruct (mongoConnected srv); [destruct (mongo_fails c)|]; simpl;
      try (eexists; reflexivity).
    destruct H; discriminate.
Qed.

(** X6: in memory mode, create requests with hashes that are not blank
    are all stored, in the order they came, duplicates included, after
    what the array held; the list that follows shows the last twenty of
    them, the latest first. *)
Theorem creates_then_list (srv : State) (l : list Pred.Create) (c : Call) :
  mongoConnected srv = false ->
  Forall (fun a => Js.trim (Pred.with_hash a) <> "") l ->
  inMemoryTxHistory (run srv (map Pred.create_event l))
  = (inMemoryTxHistory srv ++ map Pred.create_record l)%list
  /\ response (get_transactions (run srv (map Pred.create_event l)) c)
     = {| status := 200;
          body := ListBody true "memory"
                    (firstn 20 (rev (map Pred.create_record l)
                                ++ rev (inMemoryTxHistory srv))%list) |}.
Proof.
  intros M H. rewrite (CollectorRuns.creates_in_memory l srv M H).
  split; [reflexivity|].
  unfold get_transactions. simpl.
  now rewrite ServerFacts.latest_in_memory, rev_app_distr.
Qed.

Lemma creates_then_list_witness :
  map txHash
    (items_of
       (response
          (get_transactions
             (run (Demo.on_memory [Demo.tx "old" 1])
                (map Pred.create_event
                   [{| Pred.at_call := Demo.at_ 2 false; Pred.with_hash := "abc123";
                       Pred.with_wallet := VPrim PUndefined;
                       Pred.with_network := VPrim PUndefined |};
                    {| Pred.at_call := Demo.at_ 3 false; Pred.with_hash := " abc123";
                       Pred.with_wallet := VPrim PUndefined;
                       Pred.with_network := VPrim PUndefined |}]))
             (Demo.at_ 4 false))))
  = ["abc123"; "abc123"; "old"].
Proof.
  pose proof (creates_then_list (Demo.on_memory [Demo.tx "old" 1])
                [{| Pred.at_call := Demo.at_ 2 false; Pred.with_hash := "abc123";
                    Pred.with_wallet := VPrim PUndefined;
                    Pred.with_network := VPrim PUndefined |};
                 {| Pred.at_call := Demo.at_ 3 false; Pred.with_hash := " abc123";
                    Pred.with_wallet := VPrim PUndefined;
                    Pred.with_network := VPrim PUndefined |}]
                (Demo.at_ 4 false) eq_refl
                ltac:(repeat constructor; discriminate)) as [_ H].
  rewrite H. reflexivity.
Defined.

(** X7: when the stores hold well-formed records (a trimmed, non-empty
    hash and a network label that is not falsy), as the empty stores do,
    they still do after any sequence of events, and every record a list
    returns is well-formed. *)
Theorem listed_records_well_formed
  (srv : State) (es : list Event) (c : Call) (r : TxRecord) :
  Pred.records_ok srv ->
  Pred.records_ok (run srv es)
  /\ (In r (items_of (response (get_transactions (run srv es) c))) ->
      Js.trim (txHash r) = txHash r /\ txHash r <> ""
      /\ truthy (network r) = true).
Proof.
  intros H.
  pose proof (CollectorRuns.run_keeps_records_ok es srv H) as H'.
  split; [exact H'|]. intros Hin.
  destruct (CollectorRuns.listed_record_ok _ _ _ H' Hin) as [[Ht Hne] Hn].
  auto.
Qed.

Lemma listed_records_well_formed_witness :
  Pred.records_ok
    (run (initial [])
       [Post (Demo.at_ 1 false) (Demo.post_of (VPrim (PString " abc123 ")));
        Settled true;
        Post (Demo.at_ 2 false) (Demo.post_of (VPrim (PString "def456")))]).
Proof.
  exact (proj1 (listed_records_well_formed (initial [])
                  [Post (Demo.at_ 1 false) (Demo.post_of (VPrim (PString " abc123 ")));
                   Settled true;
                   Post (Demo.at_ 2 false) (Demo.post_of (VPrim (PString "def456")))]
                  (Demo.at_ 3 false) (Demo.tx "abc123" 1)
                  (conj (Forall_nil _) (Forall_nil _)))).
Defined.

(** X8: a hash read from a list can be posted back as it is: the
    validation accepts it, and when the store takes the record (the
    in-memory array always does; Mongo does when the driver does not
    fail and the String schema can cast the wallet address and the
    network sent with it) the answer is 201 and the record created
    carries the very same hash. *)
Theorem listed_hash_posts_back
  (srv : State) (c : Call) (r : TxRecord)
  (srv' : State) (c' : Call) (wa nw : value) :
  Pred.records_ok srv ->
  In r (items_of (response (get_transactions srv c))) ->
  (mongoConnected srv' = true ->
   mongo_fails c' = false
   /\ created c' (txHash r) (or_value wa (VPrim (PString "")))
        (or_value nw (VPrim (PString "preprod"))) <> None) ->
  invalid_txHash (VPrim (PString (txHash r))) = false
  /\ exists item,
       response (post_transactions srv' c'
                   (Some {| b_txHash := VPrim (PString (txHash r));
                            b_walletAddress := wa; b_network := nw |}))
       = {| status := 201;
            body := ItemBody true
                      (if mongoConnected srv' then "mongo" else "memory")
                      item |}
       /\ txHash item = txHash r.
Proof.
  intros H Hin Hf.
  destruct (CollectorRuns.listed_record_ok _ _ _ H Hin) as [[Ht Hne] _].
  assert (Hs : Js.trim (txHash r) <> "") by now rewrite Ht.
  split; [now apply ServerFacts.valid_txHash_string|].
  destruct (mongoConnected srv') eqn:M.
  - destruct (Hf eq_refl) as [F D].
    destruct (created c' (txHash r) (or_value wa (VPrim (PString "")))
                (or_value nw (VPrim (PString "preprod")))) as [doc|] eqn:E;
      [clear D|now destruct D].
    rewrite <- Ht in E at 1.
    rewrite (ServerFacts.post_accepted_mongo srv' c' (txHash r) wa nw doc
               Hs M F E).
    exists doc. split; [reflexivity|].
    destruct (ServerFacts.created_fields _ _ _ _ _ E) as (Eh & _).
    now rewrite Eh.
  - rewrite (ServerFacts.post_accepted_memory srv' c' (txHash r) wa nw Hs M).
    eexists. split; [reflexivity|exact Ht].
Qed.

Lemma listed_hash_posts_back_witness :
  (exists item,
     response (post_transactions (Demo.on_memory []) (Demo.at_ 7 false)
                 (Some {| b_txHash := VPrim (PString "abc123");
                          b_walletAddress := VPrim PUndefined;
                          b_network := VPrim PUndefined |}))
     = {| status := 201; body := ItemBody true "memory" item |}
     /\ txHash item = "abc123")
  /\ (exists item,
        response (post_transactions (Demo.on_mongo [] []) (Demo.at_ 7 false)
                    (Some {| b_txHash := VPrim (PString "abc123");
                             b_walletAddress := VPrim (PBool true);
                             b_network := VPrim PUndefined |}))
        = {| status := 201; body := ItemBody true "mongo" item |}
        /\ txHash item = "abc123").
Proof.
  split.
  - apply (listed_hash_posts_back (Demo.on_memory [Demo.tx "abc123" 1])
             (Demo.at_ 2 false) (Demo.tx "abc123" 1)
             (Demo.on_memory []) (Demo.at_ 7 false)
             (VPrim PUndefined) (VPrim PUndefined)).
    + split; repeat constructor; discriminate.
    + left; reflexivity.
    + discriminate.
  - apply (listed_hash_posts_back (Demo.on_memory [Demo.tx "abc123" 1])
             (Demo.at_ 2 false) (Demo.tx "abc123" 1)
             (Demo.on_mongo [] []) (Demo.at_ 7 false)
             (VPrim (PBool true)) (VPrim PUndefined)).
    + split; repeat constructor; discriminate.
    + left; reflexivity.
    + intros _. split; [reflexivity|discriminate].
Defined.

(** X9: the body [sendToSelf] posts (the submitted hash, the change
    address, the network ["preprod"]), handled without a fault of the
    store, is answered 400 when the hash is blank and 201 otherwise, and
    the record created then carries the trimmed hash, the address as posted
    and the network ["preprod"]. *)
Theorem notification_is_recorded (srv : State) (c : Call) (h a : string) :
  (mongoConnected srv = true -> mongo_fails c = false) ->
  let res := response (post_transactions srv c
                         (Pred.body_of_notification
                            {| App.n_txHash := h; App.n_walletAddress := a;
                               App.n_network := "preprod" |})) in
  (Pred.allWhiteSpace h = true -> status res = 400)
  /\ (Pred.allWhiteSpace h = false ->
      res = {| status := 201;
               body := ItemBody true
                         (if mongoConnected srv then "mongo" else "memory")
                         {| txHash := Js.trim h;
                            walletAddress := VPrim (PString a);
                            network := VPrim (PString "preprod");
                            createdAt := now c |} |}).
Proof.
  intros Hf. cbv zeta. unfold Pred.body_of_notification. simpl. split.
  - intros W. rewrite ServerFacts.post_rejected; [reflexivity|].
    simpl. apply ServerFacts.invalid_txHash_spec. simpl.
    now apply JsFacts.trim_empty_iff.
  - intros W.
    assert (Hs : Js.trim h <> "").
    { intros E. apply JsFacts.trim_empty_iff in E. congruence. }
    assert (Ea : or_value (VPrim (PString a)) (VPrim (PString "")) = VPrim (PString a)).
    { unfold or_value. simpl.
      destruct (String.eqb_spec a "") as [->|_]; reflexivity. }
    destruct (mongoConnected srv) eqn:M.
    + rewrite (ServerFacts.post_accepted_mongo srv c h _ _
                 {| txHash := Js.trim h;
                    walletAddress := VPrim (PString a);
                    network := VPrim (PString "preprod");
                    createdAt := now c |} Hs M (Hf eq_refl));
        [reflexivity|].
      rewrite Ea. apply ServerFacts.created_strings.
    + rewrite (ServerFacts.post_accepted_memory srv c h _ _ Hs M).
      now rewrite Ea.
Qed.

Lemma notification_is_recorded_witness :
  response (post_transactions (Demo.on_memory []) (Demo.at_ 3 false)
              (Pred.body_of_notification
                 {| App.n_txHash := "f00d"; App.n_walletAddress := "addr_test1";
                    App.n_network := "preprod" |}))
  = {| status := 201;
       body := ItemBody true "memory"
                 {| txHash := "f00d";
                    walletAddress := VPrim (PString "addr_test1");
                    network := VPrim (PString "preprod");
                    createdAt := 3 |} |}.
Proof.
  exact (proj2 (notification_is_recorded (Demo.on_memory []) (Demo.at_ 3 false)
                  "f00d" "addr_test1" ltac:(discriminate)) eq_refl).
Defined.

(* ================================================================== *)
(** * Part XI. More about the wallet card *)
(* ================================================================== *)

Module CardFacts.
Import Js App Pred.

(** The message of a failed transaction is never empty. *)
Lemma or_default_nonempty a d : d <> "" -> or_default a d <> "".
Proof.
  intros Hd. unfold or_default. destruct a as [s|]; [|exact Hd].
  destruct (String.eqb_spec s ""); assumption.
Qed.

Lemma or_default_first i o d m :
  i = Some m -> m <> "" -> or_default (or_message i o) d = m.
Proof.
  intros -> Hm. unfold or_message, or_default.
  destruct (String.eqb_spec m "") as [E|_]; [now destruct Hm|].
  destruct (String.eqb_spec m "") as [E|_]; [now destruct Hm|reflexivity].
Qed.

Lemma or_default_second i o d m :
  i = None \/ i = Some "" -> o = Some m -> m <> "" ->
  or_default (or_message i o) d = m.
Proof.
  intros Hi -> Hm. unfold or_message, or_default.
  destruct Hi as [-> | ->]; simpl;
    destruct (String.eqb_spec m "") as [E|_]; try reflexivity; now destruct Hm.
Qed.

Lemma or_default_last i o d :
  i = None \/ i = Some "" -> o = None \/ o = Some "" ->
  or_default (or_message i o) d = d.
Proof. intros [-> | ->] [-> | ->]; reflexivity. Qed.

End CardFacts.

(** X10: [sendToSelf] always resolves, and the steps it sets are, in
    order, one of: none (the guard was closed); [building], [signing],
    [submitting], [confirming], [success]; or a beginning of
    [building], [signing], [submitting] followed by [error].  No step is
    skipped and nothing follows [success] or [error]; a run that passes the
    guard sets at least [building]. *)
Theorem sendToSelf_step_order (env : Env) (st : CardState) :
  let r := sendToSelf env st in
  let steps := map step (statuses (effects r)) in
  result r = Resolved tt
  /\ ((steps = [] /\ effects r = [] /\ final r = st)
      \/ steps = [building; error]
      \/ steps = [building; signing; error]
      \/ steps = [building; signing; submitting; error]
      \/ steps = [building; signing; submitting; confirming; success])
  /\ (isTxRunning st = false -> connected env = true -> wallet env <> None ->
      exists rest, steps = (building :: rest)%list).
Proof.
  cbv zeta.
  AppFacts.on_guard env st;
    try (split; [reflexivity|]; split; [now left|]; intros; congruence).
  AppFacts.settle.
  all: repeat match goal with u : unit |- _ => destruct u end.
  all: split; [reflexivity|]; split; [|intros; eexists; reflexivity].
  all: tauto.
Qed.

Lemma sendToSelf_step_order_witness :
  exists rest,
    map step (statuses (effects (sendToSelf
      (Demo.demo_env (Demo.demo_wallet (Rejected Demo.boom)) (Resolved tt))
      initialCard))) = (building :: rest)%list.
Proof.
  apply (proj2 (proj2 (sendToSelf_step_order
           (Demo.demo_env (Demo.demo_wallet (Rejected Demo.boom)) (Resolved tt))
           initialCard))).
  - reflexivity.
  - reflexivity.
  - discriminate.
Defined.

(** X11: when a run ends in [error], the value thrown was written to the
    console under ["Transaction error:"] and the message shown is taken
    from it: [info.message] when that is a non-empty string, else
    [message] when that is one, else the fixed text; it is never
    empty. *)
Theorem sendToSelf_error_message (env : Env) (st : CardState) (s : TransactionStatus) :
  In s (statuses (effects (sendToSelf env st))) -> step s = error ->
  message s <> ""
  /\ exists e,
       In (ConsoleError "Transaction error:" e) (effects (sendToSelf env st))
       /\ message s
          = or_default (or_message (info_message e) (own_message e))
              Pred.default_failure
       /\ (forall m, info_message e = Some m -> m <> "" -> message s = m)
       /\ (forall m, info_message e = None \/ info_message e = Some "" ->
             own_message e = Some m -> m <> "" -> message s = m)
       /\ (info_message e = None \/ info_message e = Some "" ->
           own_message e = None \/ own_message e = Some "" ->
           message s = Pred.default_failure).
Proof.
  assert (G : forall e,
            let m := or_default (or_message (info_message e) (own_message e))
                       Pred.default_failure in
            m <> ""
            /\ m = or_default (or_message (info_message e) (own_message e))
                     Pred.default_failure
            /\ (forall m', info_message e = Some m' -> m' <> "" -> m = m')
            /\ (forall m', info_message e = None \/ info_message e = Some "" ->
                  own_message e = Some m' -> m' <> "" -> m = m')
            /\ (info_message e = None \/ info_message e = Some "" ->
                own_message e = None \/ own_message e = Some "" ->
                m = Pred.default_failure)).
  { intros e m. subst m. split; [|split; [reflexivity|split; [|split]]].
    - apply CardFacts.or_default_nonempty. discriminate.
    - intros m' H1 H2. now apply CardFacts.or_default_first.
    - intros m' H1 H2 H3. now apply CardFacts.or_default_second.
    - intros H1 H2. now apply CardFacts.or_default_last. }
  AppFacts.on_guard env st; try contradiction.
  AppFacts.settle.
  all: intros Hin Hs; cbn in Hin.
  all: repeat (destruct Hin as [<- | Hin]; [try discriminate Hs|]);
    try contradiction.
  all: match goal with
       | |- context [ConsoleError "Transaction error:" ?e] =>
           destruct (G e) as (G1 & G2 & G3 & G4 & G5);
           split; [exact G1|];
           exists e; split; [cbn; tauto|];
           split; [exact G2|]; split; [exact G3|]; split; [exact G4|exact G5]
       end.
Qed.

Lemma sendToSelf_error_message_witness :
  let env := {| connected := true;
                wallet := Some (Demo.demo_wallet (Resolved nil));
                tx_build := fun _ _ => Rejected Demo.boom;
                fetch := fun _ _ => Resolved tt |} in
  message (txStatus (final (sendToSelf env initialCard))) <> ""
  /\ message (txStatus (final (sendToSelf env initialCard))) = "network down".
Proof.
  intros env.
  split; [|reflexivity].
  exact (proj1 (sendToSelf_error_message env initialCard
                  (txStatus (final (sendToSelf env initialCard)))
                  ltac:(cbn; tauto) eq_refl)).
Defined.

(** X12: a run that ends in [error] has not waited and has touched
    neither the balance, nor the loading flag, nor the address; the error
    status is the one the card is left with, and the guard is open
    again. *)
Theorem failed_run_leaves_card (env : Env) (st : CardState) (s : TransactionStatus) :
  In s (statuses (effects (sendToSelf env st))) -> step s = error ->
  Pred.sleeps (effects (sendToSelf env st)) = []
  /\ balanceLovelace (final (sendToSelf env st)) = balanceLovelace st
  /\ isLoadingBalance (final (sendToSelf env st)) = isLoadingBalance st
  /\ address (final (sendToSelf env st)) = address st
  /\ txStatus (final (sendToSelf env st)) = s
  /\ isTxRunning (final (sendToSelf env st)) = false.
Proof.
  AppFacts.on_guard env st; try contradiction.
  AppFacts.settle.
  all: intros Hin Hs; cbn in Hin.
  all: repeat (destruct Hin as [<- | Hin]; [try discriminate Hs|]);
    try contradiction.
  all: repeat split.
Qed.

Lemma failed_run_leaves_card_witness :
  let env := {| connected := true;
                wallet := Some (Demo.demo_wallet (Resolved nil));
                tx_build := fun _ _ => Rejected Demo.boom;
                fetch := fun _ _ => Resolved tt |} in
  Pred.sleeps (effects (sendToSelf env initialCard)) = []
  /\ balanceLovelace (final (sendToSelf env initialCard)) = "0".
Proof.
  intros env.
  destruct (failed_run_leaves_card env initialCard
              (txStatus (final (sendToSelf env initialCard)))
              ltac:(cbn; tauto) eq_refl) as (H1 & H2 & _).
  split; [exact H1|exact H2].
Defined.

(** X13: a run that reaches [success] has waited once, for 8000 ms, and
    leaves the balance that [getBalance] alone would have set from the
    same wallet, the loading flag cleared and the address as it was. *)
Theorem successful_run_refreshes_balance
  (env : Env) (st : CardState) (s : TransactionStatus) :
  In s (statuses (effects (sendToSelf env st))) -> step s = success ->
  Pred.sleeps (effects (sendToSelf env st)) = [8000]
  /\ balanceLovelace (final (sendToSelf env st))
     = balanceLovelace (final (getBalance env st))
  /\ isLoadingBalance (final (sendToSelf env st)) = false
  /\ address (final (sendToSelf env st)) = address st
  /\ txStatus (final (sendToSelf env st)) = s.
Proof.
  AppFacts.on_guard env st; try contradiction.
  AppFacts.settle.
  all: intros Hin Hs; cbn in Hin.
  all: repeat (destruct Hin as [<- | Hin]; [try discriminate Hs|]);
    try contradiction.
  all: repeat split.
Qed.

Lemma successful_run_refreshes_balance_witness :
  let env := Demo.demo_env
               (Demo.demo_wallet
                  (Resolved [{| unit_ := "lovelace"; quantity := "2500000" |}]))
               (Resolved tt) in
  Pred.sleeps (effects (sendToSelf env initialCard)) = [8000]
  /\ balanceLovelace (final (sendToSelf env initialCard))
     = balanceLovelace (final (getBalance env initialCard)).
Proof.
  intros env.
  destruct (successful_run_refreshes_balance env initialCard
              (txStatus (final (sendToSelf env initialCard)))
              ltac:(cbn; tauto) eq_refl) as (H1 & H2 & _).
  split; [exact H1|exact H2].
Defined.

(** X14: the only transaction [sendToSelf] has built is the transfer of
    ["1000000"] lovelace to the wallet's own change address, and the only
    request it sends goes to the collector's URL with the submitted hash,
    that address and the network ["preprod"]: two environments that agree
    there (and on the wallet) give the same run. *)
Theorem sendToSelf_only_self_transfer (env1 env2 : Env) (st : CardState) :
  connected env1 = connected env2 -> wallet env1 = wallet env2 ->
  (forall w a, wallet env1 = Some w -> wallet_getChangeAddress w = Resolved a ->
     tx_build env1 a "1000000" = tx_build env2 a "1000000"
     /\ forall h,
          fetch env1 "http://localhost:4000/api/transactions"
            {| n_txHash := h; n_walletAddress := a; n_network := "preprod" |}
          = fetch env2 "http://localhost:4000/api/transactions"
              {| n_txHash := h; n_walletAddress := a; n_network := "preprod" |}) ->
  sendToSelf env1 st = sendToSelf env2 st.
Proof.
  intros Hc Hw H. AppFacts.unfold_run. rewrite <- Hc, <- Hw.
  destruct (isTxRunning st); [reflexivity|].
  destruct (connected env1); [|reflexivity].
  destruct (wallet env1) as [w|] eqn:W; [|reflexivity].
  cbn. destruct (wallet_getChangeAddress w) as [a|e] eqn:A; cbn; [|reflexivity].
  destruct (H w a eq_refl A) as [Hb Hf]. rewrite <- Hb.
  destruct (tx_build env1 a "1000000") as [u|e]; cbn; [|reflexivity].
  destruct (wallet_signTx w u) as [g|e]; cbn; [|reflexivity].
  destruct (wallet_submitTx w g) as [h|e]; cbn; [|reflexivity].
  rewrite <- (Hf h).
  destruct (wallet_getBalance w) as [assets|e]; cbn;
    destruct (fetch env1 _ _); reflexivity.
Qed.

Lemma sendToSelf_only_self_transfer_witness :
  sendToSelf
    {| connected := true;
       wallet := Some (Demo.demo_wallet (Resolved nil));
       tx_build := fun a q => if String.eqb q "1000000"
                              then Resolved ("tx:" ++ a ++ ":" ++ q)
                              else Rejected Demo.boom;
       fetch := fun _ _ => Resolved tt |}
    initialCard
  = sendToSelf (Demo.demo_env (Demo.demo_wallet (Resolved nil)) (Resolved tt))
      initialCard.
Proof.
  apply sendToSelf_only_self_transfer.
  - reflexivity.
  - reflexivity.
  - intros w a _ _. split; reflexivity.
Defined.

(** X15: [loadAddress] always resolves; without a wallet it does
    nothing; otherwise it sets the address to the change address, or, when
    the wallet call rejects, logs the error and sets the fixed text; it
    does not look at [connected] and leaves the other cells alone. *)
Theorem loadAddress_settles (env : Env) (st : CardState) :
  result (loadAddress env st) = Resolved tt
  /\ balanceLovelace (final (loadAddress env st)) = balanceLovelace st
  /\ isLoadingBalance (final (loadAddress env st)) = isLoadingBalance st
  /\ txStatus (final (loadAddress env st)) = txStatus st
  /\ isTxRunning (final (loadAddress env st)) = isTxRunning st
  /\ (wallet env = None ->
      effects (loadAddress env st) = [] /\ final (loadAddress env st) = st)
  /\ (forall w a, wallet env = Some w -> wallet_getChangeAddress w = Resolved a ->
        effects (loadAddress env st) = [SetAddress a]
        /\ address (final (loadAddress env st)) = a)
  /\ (forall w e, wallet env = Some w -> wallet_getChangeAddress w = Rejected e ->
        effects (loadAddress env st)
        = [ConsoleError "Failed to get change address:" e;
           SetAddress "Could not load address. Check wallet connection."]
        /\ address (final (loadAddress env st))
           = "Could not load address. Check wallet connection.").
Proof.
  unfold loadAddress, try_catch, bind, emit, await, ret.
  destruct (wallet env) as [w|]; cbn.
  - destruct (wallet_getChangeAddress w) as [a|e] eqn:E; cbn;
      repeat split; try discriminate; intros;
      repeat match goal with
             | H : Some _ = Some _ |- _ => injection H as <-
             end;
      match goal with
      | H : wallet_getChangeAddress w = _ |- _ =>
          rewrite E in H; try discriminate H; injection H as <-
      end; reflexivity.
  - repeat split; discriminate.
Qed.

Lemma loadAddress_settles_witness :
  address (final (loadAddress
                    {| connected := false;
                       wallet := Some {| wallet_getChangeAddress := Rejected Demo.boom;
                                         wallet_getBalance := Resolved nil;
                                         wallet_signTx := fun u => Resolved u;
                                         wallet_submitTx := fun u => Resolved u |};
                       tx_build := fun a _ => Resolved a;
                       fetch := fun _ _ => Resolved tt |}
                    initialCard))
  = "Could not load address. Check wallet connection.".
Proof.
  match goal with
  | |- address (final (loadAddress ?env _)) = _ =>
      destruct (loadAddress_settles env initialCard)
        as (_ & _ & _ & _ & _ & _ & _ & H)
  end.
  exact (proj2 (H _ Demo.boom eq_refl eq_refl)).
Defined.

(** X16: [getBalance] touches the balance and the loading flag only;
    when the wallet is not connected or missing it does nothing at all;
    otherwise the loading flag is set in every state before the last, so
    that the card shows the balance as loading until the call ends. *)
Theorem getBalance_frame (env : Env) (st : CardState) :
  address (final (getBalance env st)) = address st
  /\ txStatus (final (getBalance env st)) = txStatus st
  /\ isTxRunning (final (getBalance env st)) = isTxRunning st
  /\ (connected env = false \/ wallet env = None ->
      effects (getBalance env st) = [] /\ final (getBalance env st) = st)
  /\ (forall mid,
        In mid (removelast (states st (effects (getBalance env st)))) ->
        isLoadingBalance mid = true)
  /\ (connected env = true -> wallet env <> None ->
      exists rest,
        effects (getBalance env st) = (SetIsLoadingBalance true :: rest)%list).
Proof.
  AppFacts.unfold_run.
  destruct (connected env); [destruct (wallet env) as [w|]|]; cbn.
  - destruct (wallet_getBalance w) as [assets|e]; cbn.
    all: split; [reflexivity|]; split; [reflexivity|]; split; [reflexivity|].
    all: split; [intros [G|G]; discriminate G|].
    all: split; [|intros; eexists; reflexivity].
    all: intros mid Hin;
      repeat (destruct Hin as [<- | Hin]; [reflexivity|]); contradiction.
  - split; [reflexivity|]. split; [reflexivity|]. split; [reflexivity|].
    split; [intros _; now split|].
    split; [intros mid Hin; contradiction|]. intros _ G; now destruct G.
  - split; [reflexivity|]. split; [reflexivity|]. split; [reflexivity|].
    split; [intros _; now split|].
    split; [intros mid Hin; contradiction|]. discriminate.
Qed.

Lemma getBalance_frame_witness :
  effects (getBalance Demo.offline_env initialCard) = []
  /\ exists rest,
       effects (getBalance
                  (Demo.demo_env (Demo.demo_wallet (Resolved nil)) (Resolved tt))
                  initialCard) = (SetIsLoadingBalance true :: rest)%list.
Proof.
  split.
  - exact (proj1 (proj1 (proj2 (proj2 (proj2
                    (getBalance_frame Demo.offline_env initialCard))))
                    (or_introl eq_refl))).
  - apply (proj2 (proj2 (proj2 (proj2 (proj2
             (getBalance_frame
                (Demo.demo_env (Demo.demo_wallet (Resolved nil)) (Resolved tt))
                initialCard)))))).
    + reflexivity.
    + discriminate.
Defined.

Module ViewFacts.
Import Js App Pred.

(** What the card shows on its send button is the guard. *)
Lemma render_send env st v :
  renderWalletCard env st = Normal (Some v) ->
  send_disabled v = isTxRunning st
  /\ send_label v = (if isTxRunning st then "Sending..." else "Send 1 ADA to Self")
  /\ balance_disabled v = isLoadingBalance st
  /\ view_status v = renderTransactionStatus (Some (txStatus st)).
Proof.
  unfold renderWalletCard.
  destruct (connected env); simpl; [|discriminate].
  destruct (formatLovelaceToAda (PString (balanceLovelace st))); [|discriminate].
  intros H; injection H as <-. repeat split.
Qed.

Lemma format_malformed q :
  StringToBigInt q = None -> formatLovelaceToAda (PString q) = Throw SyntaxError.
Proof.
  intros H. apply FormatterFacts.format_of_Throw.
  unfold or_prim. simpl.
  destruct (String.eqb_spec q "") as [->|_]; [discriminate H|].
  simpl. now rewrite H.
Qed.

Lemma format_literal q z :
  StringToBigInt q = Some z -> 0 <= z ->
  formatLovelaceToAda (PString q) = Normal (Spec.formatted z ++ " ADA").
Proof.
  intros H Hz. apply FormatterFacts.format_nat; [exact Hz|].
  now apply FormatterFacts.BigInt_or_literal.
Qed.

End ViewFacts.

(** X17: the status block after a run: a run that ended in [error] shows
    no transaction link; a run that ended in [success] shows the link to
    the explorer page of the submitted hash, with the hash as its text,
    unless the hash is the empty string, which shows no link. *)
Theorem transaction_link_after_run (env : Env) (st : CardState) (s : TransactionStatus) :
  In s (statuses (effects (sendToSelf env st))) ->
  let v := renderTransactionStatus (Some (txStatus (final (sendToSelf env st)))) in
  (step s = error -> view_step v = error /\ view_link v = None)
  /\ (forall h, step s = success -> App.txHash s = Some h ->
        view_step v = success
        /\ (h <> "" ->
            view_link v
            = Some ("https://preprod.cardanoscan.io/transaction/" ++ h, h))
        /\ (h = "" -> view_link v = None)).
Proof.
  AppFacts.on_guard env st; try contradiction.
  AppFacts.settle.
  all: intros Hin; cbn in Hin.
  all: repeat (destruct Hin as [<- | Hin];
               [split; [try discriminate|intros h Hs Hh; try discriminate Hs]|]);
    try contradiction.
  all: try (intros _; split; reflexivity).
  all: cbn in Hh; injection Hh as <-; unfold renderTransactionStatus; cbn;
    split; [reflexivity|];
    match goal with
    | |- context [String.eqb ?x ""] =>
        destruct (String.eqb_spec x "") as [E|E]
    end;
    (split; [intros N; try reflexivity; now destruct N
            |intros N; try reflexivity; now destruct E]).
Qed.

Lemma transaction_link_after_run_witness :
  view_link
    (renderTransactionStatus
       (Some (txStatus
                (final (sendToSelf
                          (Demo.demo_env (Demo.demo_wallet (Resolved nil)) (Resolved tt))
                          initialCard)))))
  = Some ("https://preprod.cardanoscan.io/transaction/f00d", "f00d").
Proof.
  refine (proj1 (proj2 (proj2 (transaction_link_after_run
            (Demo.demo_env (Demo.demo_wallet (Resolved nil)) (Resolved tt))
            initialCard
            {| step := success; message := "Transaction successful!";
               App.txHash := Some "f00d" |} _)
            "f00d" eq_refl eq_refl)) _).
  - cbn. tauto.
  - discriminate.
Defined.

(** X18: what the card shows after [getBalance]: when the wallet call
    rejects or returns no lovelace entry, ["0 lovelace (0.000000 ADA)"];
    when it returns a quantity that [BigInt] reads as [z >= 0], that
    quantity and its formatted amount; and when it returns a quantity that
    is no integer literal, nothing: the quantity is stored as it came and
    the render throws a SyntaxError. *)
Theorem balance_shown_after_getBalance (env : Env) (st : CardState) (w : Wallet) :
  connected env = true -> wallet env = Some w ->
  let shown := renderWalletCard env (final (getBalance env st)) in
  ((exists e, wallet_getBalance w = Rejected e)
   \/ (exists assets, wallet_getBalance w = Resolved assets
         /\ forall a, In a assets -> unit_ a <> "lovelace") ->
   exists v, shown = Normal (Some v)
             /\ view_balance v = "0 lovelace (0.000000 ADA)")
  /\ (forall assets a z,
        wallet_getBalance w = Resolved assets ->
        find (fun asset => String.eqb (unit_ asset) "lovelace") assets = Some a ->
        StringToBigInt (quantity a) = Some z -> 0 <= z ->
        exists v, shown = Normal (Some v)
                  /\ view_balance v
                     = quantity a ++ " lovelace (" ++ (Spec.formatted z ++ " ADA") ++ ")")
  /\ (forall assets a,
        wallet_getBalance w = Resolved assets ->
        find (fun asset => String.eqb (unit_ asset) "lovelace") assets = Some a ->
        StringToBigInt (quantity a) = None ->
        shown = Throw SyntaxError).
Proof.
  intros Hc Hw. cbv zeta. unfold renderWalletCard. rewrite Hc. simpl negb. cbv iota.
  AppFacts.unfold_run. rewrite Hc, Hw.
  destruct (wallet_getBalance w) as [assets|e] eqn:E; cbn.
  - split; [|split].
    + intros [[e He]|(l & Hl & Hno)]; [discriminate He|].
      injection Hl as <-.
      rewrite (AppFacts.find_lovelace_none _ Hno). cbn.
      eexists; split; reflexivity.
    + intros l a z Hl Hf Hq Hz. injection Hl as <-. rewrite Hf. cbn.
      rewrite (ViewFacts.format_literal _ _ Hq Hz).
      eexists; split; reflexivity.
    + intros l a Hl Hf Hq. injection Hl as <-. rewrite Hf. cbn.
      now rewrite (ViewFacts.format_malformed _ Hq).
  - split; [|split]; try (intros; discriminate).
    intros _. eexists; split; reflexivity.
Qed.

Lemma balance_shown_after_getBalance_witness :
  renderWalletCard
    (Demo.demo_env
       (Demo.demo_wallet (Resolved [{| unit_ := "lovelace"; quantity := "12 ADA" |}]))
       (Resolved tt))
    (final (getBalance
              (Demo.demo_env
                 (Demo.demo_wallet
                    (Resolved [{| unit_ := "lovelace"; quantity := "12 ADA" |}]))
                 (Resolved tt))
              initialCard))
  = Throw SyntaxError.
Proof.
  exact (proj2 (proj2 (balance_shown_after_getBalance
           (Demo.demo_env
              (Demo.demo_wallet
                 (Resolved [{| unit_ := "lovelace"; quantity := "12 ADA" |}]))
              (Resolved tt))
           initialCard _ eq_refl eq_refl)) _ _ eq_refl eq_refl eq_refl).
Defined.

(** X19: while a run of [sendToSelf] is under way the send button is
    disabled and reads ["Sending..."], in every state before the last; once
    the run is over it is enabled again and reads ["Send 1 ADA to
    Self"]. *)
Theorem send_button_follows_run (env : Env) (st : CardState) :
  (forall mid v,
     In mid (removelast (states st (effects (sendToSelf env st)))) ->
     renderWalletCard env mid = Normal (Some v) ->
     send_disabled v = true /\ send_label v = "Sending...")
  /\ (forall v,
        isTxRunning st = false ->
        renderWalletCard env (final (sendToSelf env st)) = Normal (Some v) ->
        send_disabled v = false /\ send_label v = "Send 1 ADA to Self").
Proof.
  split.
  - intros mid v Hin Hv.
    assert (R : isTxRunning mid = true).
    { revert Hin. clear Hv.
      AppFacts.on_guard env st; try contradiction.
      AppFacts.settle.
      all: intros Hin; cbn in Hin.
      all: repeat (destruct Hin as [<- | Hin]; [reflexivity|]).
      all: contradiction. }
    destruct (ViewFacts.render_send _ _ _ Hv) as (H1 & H2 & _).
    rewrite H1, H2, R. now split.
  - intros v Hr Hv.
    destruct (ViewFacts.render_send _ _ _ Hv) as (H1 & H2 & _).
    rewrite H1, H2, (AppFacts.sendToSelf_releases env st Hr). now split.
Qed.

Lemma send_button_follows_run_witness :
  exists v,
    renderWalletCard
      (Demo.demo_env (Demo.demo_wallet (Resolved nil)) (Resolved tt))
      (final (sendToSelf
                (Demo.demo_env (Demo.demo_wallet (Resolved nil)) (Resolved tt))
                initialCard)) = Normal (Some v)
    /\ send_disabled v = false /\ send_label v = "Send 1 ADA to Self".
Proof.
  eexists. split; [reflexivity|].
  apply (proj2 (send_button_follows_run
                  (Demo.demo_env (Demo.demo_wallet (Resolved nil)) (Resolved tt))
                  initialCard)); reflexivity.
Defined.

(* ================================================================== *)
(** * Part XII. More about the connection card and the formatter *)
(* ================================================================== *)

(** X20: [handleConnect] always resolves.  When the wallet's key is not
    found under [window.cardano] (or there is no [window.cardano] at all)
    it only shows the install message: [connect] is not called.  When the
    key is found, [connect] is called once, with the wallet id, and the
    message ends as ["Connected to ...!"] if it resolves and as the fixed
    failure text, with the error logged, if it rejects. *)
Theorem handleConnect_outcomes
  (env : ConnectionCard.Env) (walletId : string) (shown : string) :
  let r := ConnectionCard.handleConnect env walletId in
  fst r = Resolved tt
  /\ (ConnectionCard.isWalletInstalled env (ConnectionCard.browserKey walletId) = false ->
      snd r = [ConnectionCard.SetStatusMessage
                 ("Wallet " ++ dquote ++ walletId ++ dquote
                  ++ " is not installed. Please install it first from its official website.")]
      /\ ConnectionCard.connects (snd r) = [])
  /\ (ConnectionCard.window env = None
      \/ (exists w, ConnectionCard.window env = Some w
                    /\ ConnectionCard.cardano w = None) ->
      ConnectionCard.connects (snd r) = [])
  /\ (ConnectionCard.isWalletInstalled env (ConnectionCard.browserKey walletId) = true ->
      ConnectionCard.connects (snd r) = [walletId]
      /\ (ConnectionCard.connect env walletId = Resolved tt ->
          ConnectionCard.statusMessage shown (snd r)
          = "Connected to " ++ walletId ++ "!")
      /\ (forall e, ConnectionCard.connect env walletId = Rejected e ->
            ConnectionCard.statusMessage shown (snd r)
            = "Failed to connect. Maybe you rejected the connection or there was a network issue."
            /\ In (ConnectionCard.ConsoleError "Connection error:" e) (snd r))).
Proof.
  cbv zeta.
  assert (W : ConnectionCard.window env = None
              \/ (exists w, ConnectionCard.window env = Some w
                            /\ ConnectionCard.cardano w = None) ->
              ConnectionCard.isWalletInstalled env
                (ConnectionCard.browserKey walletId) = false).
  { unfold ConnectionCard.isWalletInstalled.
    intros [-> | (w & -> & ->)]; reflexivity. }
  unfold ConnectionCard.handleConnect.
  destruct (ConnectionCard.isWalletInstalled env
              (ConnectionCard.browserKey walletId)) eqn:I; cbn.
  - destruct (ConnectionCard.connect env walletId) as [[]|e] eqn:C; cbn.
    + split; [reflexivity|]. split; [discriminate|].
      split; [intros H; apply W in H; discriminate H|].
      intros _. split; [reflexivity|]. split; [reflexivity|]. discriminate.
    + split; [reflexivity|]. split; [discriminate|].
      split; [intros H; apply W in H; discriminate H|].
      intros _. split; [reflexivity|]. split; [discriminate|].
      intros e' He. injection He as <-. split; [reflexivity|]. cbn. tauto.
  - split; [reflexivity|]. split; [intros _; now split|].
    split; [reflexivity|discriminate].
Qed.

Lemma handleConnect_outcomes_witness :
  ConnectionCard.connects
    (snd (ConnectionCard.handleConnect (Demo.browser ["nami"]) "flint-wallet")) = []
  /\ ConnectionCard.connects
       (snd (ConnectionCard.handleConnect (Demo.browser ["flint"]) "flint-wallet"))
     = ["flint-wallet"]
  /\ ConnectionCard.statusMessage "Not connected"
       (snd (ConnectionCard.handleConnect (Demo.browser ["nami"]) "Nami"))
     = "Connected to Nami!".
Proof.
  split; [|split].
  - exact (proj2 (proj1 (proj2 (handleConnect_outcomes
             (Demo.browser ["nami"]) "flint-wallet" "Not connected")) eq_refl)).
  - exact (proj1 (proj2 (proj2 (proj2 (handleConnect_outcomes
             (Demo.browser ["flint"]) "flint-wallet" "Not connected"))) eq_refl)).
  - exact (proj1 (proj2 (proj2 (proj2 (proj2 (handleConnect_outcomes
             (Demo.browser ["nami"]) "Nami" "Not connected"))) eq_refl))
             eq_refl).
Defined.

(** X21: [handleDisconnect] always resolves and calls [disconnect] once;
    the message ends as ["Disconnected from wallet."] when the call
    resolves, and as the reload instruction, with the error logged, when it
    rejects. *)
Theorem handleDisconnect_outcomes (env : ConnectionCard.Env) (shown : string) :
  let r := ConnectionCard.handleDisconnect env in
  fst r = Resolved tt
  /\ (exists rest, snd r = (ConnectionCard.CallDisconnect :: rest)%list
                   /\ ~ In ConnectionCard.CallDisconnect rest)
  /\ (ConnectionCard.disconnect env = Resolved tt ->
      ConnectionCard.statusMessage shown (snd r) = "Disconnected from wallet.")
  /\ (forall e, ConnectionCard.disconnect env = Rejected e ->
        ConnectionCard.statusMessage shown (snd r)
        = "Error while disconnecting. Please reload the page."
        /\ In (ConnectionCard.ConsoleError "Disconnect error:" e) (snd r)).
Proof.
  cbv zeta. unfold ConnectionCard.handleDisconnect.
  destruct (ConnectionCard.disconnect env) as [[]|e] eqn:D; cbn.
  - split; [reflexivity|]. split.
    + eexists; split; [reflexivity|]. intros [H|[]]; discriminate H.
    + split; [reflexivity|discriminate].
  - split; [reflexivity|]. split.
    + eexists; split; [reflexivity|]. intros [H|[H|[]]]; discriminate H.
    + split; [discriminate|].
      intros e' He. injection He as <-. split; [reflexivity|]. cbn. tauto.
Qed.

Lemma handleDisconnect_outcomes_witness :
  ConnectionCard.statusMessage "Connected to nami!"
    (snd (ConnectionCard.handleDisconnect (Demo.browser ["nami"])))
  = "Error while disconnecting. Please reload the page.".
Proof.
  exact (proj1 (proj2 (proj2 (proj2 (handleDisconnect_outcomes
           (Demo.browser ["nami"]) "Connected to nami!"))) Demo.boom eq_refl)).
Defined.

Module DisplayFacts.
Import Js App JsFacts.

Lemma append_inj_length (a b x y : string) :
  String.length a = String.length b -> a ++ x = b ++ y -> a = b /\ x = y.
Proof.
  revert b. induction a as [|c a IH]; intros [|d b] L E; simpl in *;
    try discriminate; [now split|].
  injection E as -> E. injection L as L.
  destruct (IH b L E) as [-> ->]. now split.
Qed.

Lemma append_cancel_r (a b x : string) : a ++ x = b ++ x -> a = b.
Proof.
  intros E. apply (append_inj_length a b x x); [|exact E].
  apply (f_equal String.length) in E. rewrite !length_append in E. lia.
Qed.

Lemma parseDigits_zeros n s :
  parseDigits 10 0 (string_of_list_ascii (repeat "0"%char n) ++ s)
  = parseDigits 10 0 s.
Proof. induction n as [|n IH]; [reflexivity|exact IH]. Qed.

Lemma parseDigits_toString r :
  0 <= r -> parseDigits 10 0 (BigInt_toString r) = Some r.
Proof.
  intros Hr. unfold BigInt_toString.
  destruct (Z.ltb_spec r 0) as [?|_]; [lia|].
  rewrite Z.abs_eq by lia.
  now rewrite parseDigits_digitsOf by (split; [lia|apply log2_fuel; lia]).
Qed.

Lemma toString_inj a b : BigInt_toString a = BigInt_toString b -> a = b.
Proof.
  intros E. apply (f_equal StringToBigInt) in E.
  rewrite !StringToBigInt_toString_signed in E. congruence.
Qed.

Lemma formatted_inj m1 m2 :
  0 <= m1 -> 0 <= m2 -> Spec.formatted m1 = Spec.formatted m2 -> m1 = m2.
Proof.
  intros H1 H2 E. unfold Spec.formatted in E.
  assert (B1 : 0 <= m1 mod 1000000 < 1000000) by (apply Z.mod_pos_bound; lia).
  assert (B2 : 0 <= m2 mod 1000000 < 1000000) by (apply Z.mod_pos_bound; lia).
  pose proof (pad6_length _ (toString_length_lt_million _ B1)) as L1.
  pose proof (pad6_length _ (toString_length_lt_million _ B2)) as L2.
  assert (L : String.length (BigInt_toString (m1 / 1000000))
              = String.length (BigInt_toString (m2 / 1000000))).
  { apply (f_equal String.length) in E.
    rewrite !length_append in E. cbn [String.length] in E.
    rewrite ?length_append, L1, L2 in E. lia. }
  destruct (append_inj_length _ _ _ _ L E) as [Eq Er].
  apply toString_inj in Eq.
  injection Er as Er.
  assert (R : Some (m1 mod 1000000) = Some (m2 mod 1000000)).
  { rewrite <- (parseDigits_toString (m1 mod 1000000)) by lia.
    rewrite <- (parseDigits_toString (m2 mod 1000000)) by lia.
    rewrite <- (parseDigits_zeros
                  (6 - String.length (BigInt_toString (m1 mod 1000000)))).
    rewrite <- (parseDigits_zeros
                  (6 - String.length (BigInt_toString (m2 mod 1000000)))
                  (BigInt_toString (m2 mod 1000000))).
    unfold Spec.pad6 in Er. now rewrite Er. }
  injection R as R.
  rewrite (Z.div_mod m1 1000000), (Z.div_mod m2 1000000) by lia.
  now rewrite Eq, R.
Qed.

End DisplayFacts.

(** X22: two different non-negative balances are never displayed the
    same, whether they are given as BigInts or as strings [BigInt]
    reads. *)
Theorem formatLovelaceToAda_injective (s1 s2 : string) (m1 m2 : Z) :
  0 <= m1 -> 0 <= m2 ->
  StringToBigInt s1 = Some m1 -> StringToBigInt s2 = Some m2 ->
  m1 <> m2 ->
  formatLovelaceToAda (PString s1) <> formatLovelaceToAda (PString s2)
  /\ formatLovelaceToAda (PBigInt m1) <> formatLovelaceToAda (PBigInt m2).
Proof.
  intros H1 H2 E1 E2 Hne.
  assert (G : Normal (Spec.formatted m1 ++ " ADA") <> Normal (Spec.formatted m2 ++ " ADA")).
  { intros E. injection E as E.
    apply DisplayFacts.append_cancel_r in E.
    apply Hne. now apply DisplayFacts.formatted_inj. }
  split; intros E; apply G.
  - now rewrite <- (ViewFacts.format_literal s1 m1 E1 H1),
                <- (ViewFacts.format_literal s2 m2 E2 H2).
  - rewrite <- (FormatterFacts.format_nat (PBigInt m1) m1 H1
                  (FormatterFacts.BigInt_or_bigint m1)).
    now rewrite <- (FormatterFacts.format_nat (PBigInt m2) m2 H2
                      (FormatterFacts.BigInt_or_bigint m2)).
Qed.

Lemma formatLovelaceToAda_injective_witness :
  formatLovelaceToAda (PString "1500000") <> formatLovelaceToAda (PString "0x16E361").
Proof.
  exact (proj1 (formatLovelaceToAda_injective "1500000" "0x16E361" 1500000 1500001
                  ltac:(lia) ltac:(lia) eq_refl eq_refl ltac:(lia))).
Defined.
